(** * tlsio_openssl_compact: the compact OpenSSL TLS adapter

    A shallow embedding of [src/adapters/tlsio_openssl_compact.c].

    The adapter keeps one static [TLS_IO_INSTANCE] and drives an external
    TLS library and socket provider.  Everything the C code calls but does
    not define (the OpenSSL entry points, the socket helpers, the string
    copy helper) is an [Environment] of oracles; every call the adapter
    makes to the outside, and every callback it invokes, is appended to a
    trace, in program order.  Log lines go to a separate list.

    Integers follow the ILP32 target the adapter was written for: [int] is
    32 bits signed and [size_t] is 32 bits unsigned; the wrap-around is
    written out where the C code computes on them.

    A callback is a call that leaves the adapter: it is recorded in the
    trace and taken to return without calling back into the adapter, so
    the instance it returns to is the one it was called with.  Statements
    about what the instance holds after a callback has been made are
    statements about such callbacks.

    The two loops of the file are run with fuel.  A run that uses all its
    fuel yields [OutOfFuel] together with the state reached so far; a run
    that ends yields [Returned]. *)

From Stdlib Require Import ZArith List String Bool Lia.
Import ListNotations.
Local Open Scope string_scope.
Local Open Scope list_scope.
Local Open Scope Z_scope.

(** ** Machine integers *)

Definition int_bits : Z := 32.
Definition size_t_bits : Z := 32.

Definition INT_MAX : Z := 2 ^ (int_bits - 1) - 1.
Definition SIZE_MAX : Z := 2 ^ size_t_bits - 1.

(** Conversion of a mathematical integer to [size_t]: reduction modulo
    [2 ^ size_t_bits]. *)
Definition to_size_t (z : Z) : Z := z mod 2 ^ size_t_bits.

(** Conversion to [int]: the two's complement representative. *)
Definition to_int (z : Z) : Z :=
  (z + 2 ^ (int_bits - 1)) mod 2 ^ int_bits - 2 ^ (int_bits - 1).

(** ** Constants of the file *)

Definition OPENSSL_DEFAULT_READ_BUFFER_SIZE : Z := 5120.
Definition MAX_RETRY : Z := 20.
Definition RETRY_DELAY : Z := 1000.

(** Modelled from the spec: the macro [__FAILURE__] is declared in a header
    that is not part of this file.  The spec only calls it the failure
    result, as opposed to 0; the shared utility expands it to the current
    source line, so every use carries the line it is written on. *)
Definition FAILURE (line : positive) : Z := Z.pos line.

(** The status codes of [SSL_get_error] that the adapter tests for
    (values of openssl/ssl.h). *)
Definition SSL_ERROR_NONE : Z := 0.
Definition SSL_ERROR_WANT_READ : Z := 2.
Definition SSL_ERROR_WANT_WRITE : Z := 3.

(** ** Data model *)

(** A C pointer the adapter only compares with NULL and passes on:
    [None] is NULL. *)
Definition pointer : Type := option positive.
Definition NULL : pointer := None.

Definition is_null (p : pointer) : bool :=
  match p with None => true | Some _ => false end.

Inductive TLSIO_STATE : Type :=
| TLSIO_STATE_NOT_OPEN
| TLSIO_STATE_OPENING
| TLSIO_STATE_OPEN
| TLSIO_STATE_CLOSING
| TLSIO_STATE_ERROR.

Definition TLSIO_STATE_eqb (a b : TLSIO_STATE) : bool :=
  match a, b with
  | TLSIO_STATE_NOT_OPEN, TLSIO_STATE_NOT_OPEN
  | TLSIO_STATE_OPENING, TLSIO_STATE_OPENING
  | TLSIO_STATE_OPEN, TLSIO_STATE_OPEN
  | TLSIO_STATE_CLOSING, TLSIO_STATE_CLOSING
  | TLSIO_STATE_ERROR, TLSIO_STATE_ERROR => true
  | _, _ => false
  end.

Inductive IO_OPEN_RESULT : Type := IO_OPEN_OK | IO_OPEN_ERROR | IO_OPEN_CANCELLED.
Inductive IO_SEND_RESULT : Type := IO_SEND_OK | IO_SEND_ERROR | IO_SEND_CANCELLED.

(** [char*] fields that own a C string: [None] is NULL. *)
Definition c_string : Type := option string.

Record TLS_IO_INSTANCE : Type := mkTLS_IO_INSTANCE {
  on_bytes_received : pointer;
  on_io_open_complete : pointer;
  on_io_close_complete : pointer;
  on_io_error : pointer;
  on_bytes_received_context : pointer;
  on_io_open_complete_context : pointer;
  on_io_close_complete_context : pointer;
  on_io_error_context : pointer;
  ssl : pointer;
  ssl_context : pointer;
  tlsio_state : TLSIO_STATE;
  hostname : c_string;
  port : Z;
  certificate : c_string;
  x509certificate : c_string;
  x509privatekey : c_string;
  sock : Z
}.

(** The create parameters, [TLSIO_CONFIG]. *)
Record TLSIO_CONFIG : Type := mkTLSIO_CONFIG {
  config_hostname : c_string;
  config_port : Z
}.

(** A [CONCRETE_IO_HANDLE] is NULL, the address of the static instance, or
    any other pointer value a caller may pass. *)
Inductive CONCRETE_IO_HANDLE : Type :=
| NULL_HANDLE
| ADDRESS_OF_tlsio_static_instance
| OTHER_HANDLE (p : positive).

(** What [memset(result, 0, sizeof(TLS_IO_INSTANCE))] leaves, and what static
    storage holds before the first [create]: every pointer NULL, every
    integer 0, and the state with enumerator value 0. *)
Definition zeroed_instance : TLS_IO_INSTANCE :=
  mkTLS_IO_INSTANCE NULL NULL NULL NULL NULL NULL NULL NULL NULL NULL
                    TLSIO_STATE_NOT_OPEN None 0 None None None 0.

(** Field assignments. *)
Definition set_on_bytes_received (cb ctx : pointer) (i : TLS_IO_INSTANCE) :=
  mkTLS_IO_INSTANCE cb (on_io_open_complete i) (on_io_close_complete i)
    (on_io_error i) ctx (on_io_open_complete_context i)
    (on_io_close_complete_context i) (on_io_error_context i) (ssl i)
    (ssl_context i) (tlsio_state i) (hostname i) (port i) (certificate i)
    (x509certificate i) (x509privatekey i) (sock i).

Definition set_on_io_open_complete (cb ctx : pointer) (i : TLS_IO_INSTANCE) :=
  mkTLS_IO_INSTANCE (on_bytes_received i) cb (on_io_close_complete i)
    (on_io_error i) (on_bytes_received_context i) ctx
    (on_io_close_complete_context i) (on_io_error_context i) (ssl i)
    (ssl_context i) (tlsio_state i) (hostname i) (port i) (certificate i)
    (x509certificate i) (x509privatekey i) (sock i).

Definition set_on_io_close_complete (cb ctx : pointer) (i : TLS_IO_INSTANCE) :=
  mkTLS_IO_INSTANCE (on_bytes_received i) (on_io_open_complete i) cb
    (on_io_error i) (on_bytes_received_context i)
    (on_io_open_complete_context i) ctx (on_io_error_context i) (ssl i)
    (ssl_context i) (tlsio_state i) (hostname i) (port i) (certificate i)
    (x509certificate i) (x509privatekey i) (sock i).

Definition set_on_io_error (cb ctx : pointer) (i : TLS_IO_INSTANCE) :=
  mkTLS_IO_INSTANCE (on_bytes_received i) (on_io_open_complete i)
    (on_io_close_complete i) cb (on_bytes_received_context i)
    (on_io_open_complete_context i) (on_io_close_complete_context i) ctx
    (ssl i) (ssl_context i) (tlsio_state i) (hostname i) (port i)
    (certificate i) (x509certificate i) (x509privatekey i) (sock i).

Definition set_ssl (p : pointer) (i : TLS_IO_INSTANCE) :=
  mkTLS_IO_INSTANCE (on_bytes_received i) (on_io_open_complete i)
    (on_io_close_complete i) (on_io_error i) (on_bytes_received_context i)
    (on_io_open_complete_context i) (on_io_close_complete_context i)
    (on_io_error_context i) p (ssl_context i) (tlsio_state i) (hostname i)
    (port i) (certificate i) (x509certificate i) (x509privatekey i) (sock i).

Definition set_ssl_context (p : pointer) (i : TLS_IO_INSTANCE) :=
  mkTLS_IO_INSTANCE (on_bytes_received i) (on_io_open_complete i)
    (on_io_close_complete i) (on_io_error i) (on_bytes_received_context i)
    (on_io_open_complete_context i) (on_io_close_complete_context i)
    (on_io_error_context i) (ssl i) p (tlsio_state i) (hostname i)
    (port i) (certificate i) (x509certificate i) (x509privatekey i) (sock i).

Definition set_tlsio_state (s : TLSIO_STATE) (i : TLS_IO_INSTANCE) :=
  mkTLS_IO_INSTANCE (on_bytes_received i) (on_io_open_complete i)
    (on_io_close_complete i) (on_io_error i) (on_bytes_received_context i)
    (on_io_open_complete_context i) (on_io_close_complete_context i)
    (on_io_error_context i) (ssl i) (ssl_context i) s (hostname i)
    (port i) (certificate i) (x509certificate i) (x509privatekey i) (sock i).

Definition set_hostname (h : c_string) (i : TLS_IO_INSTANCE) :=
  mkTLS_IO_INSTANCE (on_bytes_received i) (on_io_open_complete i)
    (on_io_close_complete i) (on_io_error i) (on_bytes_received_context i)
    (on_io_open_complete_context i) (on_io_close_complete_context i)
    (on_io_error_context i) (ssl i) (ssl_context i) (tlsio_state i) h
    (port i) (certificate i) (x509certificate i) (x509privatekey i) (sock i).

Definition set_port (p : Z) (i : TLS_IO_INSTANCE) :=
  mkTLS_IO_INSTANCE (on_bytes_received i) (on_io_open_complete i)
    (on_io_close_complete i) (on_io_error i) (on_bytes_received_context i)
    (on_io_open_complete_context i) (on_io_close_complete_context i)
    (on_io_error_context i) (ssl i) (ssl_context i) (tlsio_state i)
    (hostname i) p (certificate i) (x509certificate i) (x509privatekey i)
    (sock i).

Definition set_certificate (c : c_string) (i : TLS_IO_INSTANCE) :=
  mkTLS_IO_INSTANCE (on_bytes_received i) (on_io_open_complete i)
    (on_io_close_complete i) (on_io_error i) (on_bytes_received_context i)
    (on_io_open_complete_context i) (on_io_close_complete_context i)
    (on_io_error_context i) (ssl i) (ssl_context i) (tlsio_state i)
    (hostname i) (port i) c (x509certificate i) (x509privatekey i) (sock i).

Definition set_x509certificate (c : c_string) (i : TLS_IO_INSTANCE) :=
  mkTLS_IO_INSTANCE (on_bytes_received i) (on_io_open_complete i)
    (on_io_close_complete i) (on_io_error i) (on_bytes_received_context i)
    (on_io_open_complete_context i) (on_io_close_complete_context i)
    (on_io_error_context i) (ssl i) (ssl_context i) (tlsio_state i)
    (hostname i) (port i) (certificate i) c (x509privatekey i) (sock i).

Definition set_x509privatekey (c : c_string) (i : TLS_IO_INSTANCE) :=
  mkTLS_IO_INSTANCE (on_bytes_received i) (on_io_open_complete i)
    (on_io_close_complete i) (on_io_error i) (on_bytes_received_context i)
    (on_io_open_complete_context i) (on_io_close_complete_context i)
    (on_io_error_context i) (ssl i) (ssl_context i) (tlsio_state i)
    (hostname i) (port i) (certificate i) (x509certificate i) c (sock i).

Definition set_sock (s : Z) (i : TLS_IO_INSTANCE) :=
  mkTLS_IO_INSTANCE (on_bytes_received i) (on_io_open_complete i)
    (on_io_close_complete i) (on_io_error i) (on_bytes_received_context i)
    (on_io_open_complete_context i) (on_io_close_complete_context i)
    (on_io_error_context i) (ssl i) (ssl_context i) (tlsio_state i)
    (hostname i) (port i) (certificate i) (x509certificate i)
    (x509privatekey i) s.

(** ** The outside world *)

(** One entry per call that leaves the adapter, with its arguments and, for
    calls that return something, the value returned. *)
Inductive event : Type :=
| Ev_SSL_Socket_Create (host : c_string) (port : Z) (ret : Z)
| Ev_SSL_Socket_Close (sock : Z)
| Ev_SSL_CTX_new (ret : pointer)
| Ev_SSL_CTX_free (ctx : pointer)
| Ev_SSL_CTX_set_default_read_buffer_len (ctx : pointer) (len : Z)
| Ev_SSL_new (ctx : pointer) (ret : pointer)
| Ev_SSL_free (ssl : pointer)
| Ev_SSL_set_fd (ssl : pointer) (sock : Z) (ret : Z)
| Ev_SSL_connect (ssl : pointer) (ret : Z)
| Ev_SSL_shutdown (ssl : pointer)
| Ev_SSL_write (ssl : pointer) (offset : Z) (num : Z) (ret : Z)
| Ev_SSL_get_error (ssl : pointer) (res : Z) (ret : Z)
| Ev_SSL_read (ssl : pointer) (num : Z) (ret : Z)
| Ev_ThreadAPI_Sleep (milliseconds : Z)
| Ev_mallocAndStrcpy_s (source : c_string) (ret : Z)
| Ev_free (s : c_string)
| Ev_on_io_open_complete (cb ctx : pointer) (open_result : IO_OPEN_RESULT)
| Ev_on_io_error (cb ctx : pointer)
| Ev_on_io_close_complete (cb ctx : pointer)
| Ev_on_send_complete (cb ctx : pointer) (send_result : IO_SEND_RESULT)
| Ev_on_bytes_received (cb ctx : pointer) (buffer : list Byte.byte) (size : Z).

Inductive log_line : Type :=
| LogError (message : string)
| LogInfo (message : string).

(** What the collaborators answer.  Each answer may depend on everything
    that has happened so far (the trace) and on the arguments of the call. *)
Record Environment : Type := mkEnvironment {
  env_SSL_Socket_Create : list event -> c_string -> Z -> Z;
  env_SSL_CTX_new : list event -> pointer;
  env_SSL_new : list event -> pointer -> pointer;
  env_SSL_set_fd : list event -> pointer -> Z -> Z;
  env_SSL_connect : list event -> pointer -> Z;
  env_SSL_write : list event -> pointer -> Z -> Z -> Z;
  env_SSL_get_error : list event -> pointer -> Z -> Z;
  env_SSL_read : list event -> pointer -> Z -> Z * list Byte.byte;
  env_mallocAndStrcpy_s : list event -> c_string -> Z * c_string
}.

(** The program state: the static instance, the trace and the log. *)
Record World : Type := mkWorld {
  tlsio_static_instance : TLS_IO_INSTANCE;
  trace : list event;
  log : list log_line
}.

(** ** A state monad with fuel exhaustion *)

Inductive outcome (A : Type) : Type :=
| Returned (a : A) (w : World)
| OutOfFuel (w : World).
Arguments Returned {A} a w.
Arguments OutOfFuel {A} w.

Definition M (A : Type) : Type := World -> outcome A.

Definition ret {A} (a : A) : M A := fun w => Returned a w.

Definition bind {A B} (m : M A) (k : A -> M B) : M B :=
  fun w => match m w with
           | Returned a w' => k a w'
           | OutOfFuel w' => OutOfFuel w'
           end.

Declare Scope tlsio_scope.
Delimit Scope tlsio_scope with tlsio.
Notation "x <- c1 ;; c2" := (bind c1 (fun x => c2))
  (at level 61, c1 at next level, right associativity) : tlsio_scope.
Notation "c1 ;; c2" := (bind c1 (fun _ => c2))
  (at level 61, right associativity) : tlsio_scope.
Local Open Scope tlsio_scope.

Definition out_of_fuel {A} : M A := fun w => OutOfFuel w.

Definition get_instance : M TLS_IO_INSTANCE :=
  fun w => Returned (tlsio_static_instance w) w.

Definition assign (f : TLS_IO_INSTANCE -> TLS_IO_INSTANCE) : M unit :=
  fun w => Returned tt (mkWorld (f (tlsio_static_instance w)) (trace w) (log w)).

Definition history : M (list event) := fun w => Returned (trace w) w.

Definition emit (e : event) : M unit :=
  fun w => Returned tt (mkWorld (tlsio_static_instance w) (trace w ++ [e]) (log w)).

Definition write_log (l : log_line) : M unit :=
  fun w => Returned tt (mkWorld (tlsio_static_instance w) (trace w) (log w ++ [l])).

Definition when (b : bool) (m : M unit) : M unit := if b then m else ret tt.

(** The text logged at line 160, [SSL_connect failed] followed by a space
    and a newline character. *)
Definition SSL_connect_failed_message : string :=
  String.append "SSL_connect failed " (String (Ascii.ascii_of_nat 10) EmptyString).

(** ** The adapter *)

Section Adapter.

Variable env : Environment.

(** *** Calls to the collaborators *)

Definition SSL_Socket_Create (host : c_string) (p : Z) : M Z :=
  h <- history ;;
  let r := env_SSL_Socket_Create env h host p in
  emit (Ev_SSL_Socket_Create host p r) ;; ret r.

Definition SSL_Socket_Close (s : Z) : M unit := emit (Ev_SSL_Socket_Close s).

Definition SSL_CTX_new : M pointer :=
  h <- history ;;
  let r := env_SSL_CTX_new env h in
  emit (Ev_SSL_CTX_new r) ;; ret r.

Definition SSL_CTX_free (ctx : pointer) : M unit := emit (Ev_SSL_CTX_free ctx).

Definition SSL_CTX_set_default_read_buffer_len (ctx : pointer) (len : Z) : M unit :=
  emit (Ev_SSL_CTX_set_default_read_buffer_len ctx len).

Definition SSL_new (ctx : pointer) : M pointer :=
  h <- history ;;
  let r := env_SSL_new env h ctx in
  emit (Ev_SSL_new ctx r) ;; ret r.

Definition SSL_free (s : pointer) : M unit := emit (Ev_SSL_free s).

Definition SSL_set_fd (s : pointer) (fd : Z) : M Z :=
  h <- history ;;
  let r := env_SSL_set_fd env h s fd in
  emit (Ev_SSL_set_fd s fd r) ;; ret r.

Definition SSL_connect (s : pointer) : M Z :=
  h <- history ;;
  let r := env_SSL_connect env h s in
  emit (Ev_SSL_connect s r) ;; ret r.

Definition SSL_shutdown (s : pointer) : M unit := emit (Ev_SSL_shutdown s).

(** [offset] is the distance of the pointer passed from the start of the
    caller's buffer. *)
Definition SSL_write (s : pointer) (offset num : Z) : M Z :=
  h <- history ;;
  let r := env_SSL_write env h s offset num in
  emit (Ev_SSL_write s offset num r) ;; ret r.

Definition SSL_get_error (s : pointer) (res : Z) : M Z :=
  h <- history ;;
  let r := env_SSL_get_error env h s res in
  emit (Ev_SSL_get_error s res r) ;; ret r.

Definition SSL_read (s : pointer) (num : Z) : M (Z * list Byte.byte) :=
  h <- history ;;
  let r := env_SSL_read env h s num in
  emit (Ev_SSL_read s num (fst r)) ;; ret r.

Definition ThreadAPI_Sleep (ms : Z) : M unit := emit (Ev_ThreadAPI_Sleep ms).

(** [mallocAndStrcpy_s(&result->hostname, source)]: the return code, and the
    value the destination field holds afterwards. *)
Definition mallocAndStrcpy_s_hostname (source : c_string) : M Z :=
  h <- history ;;
  let r := env_mallocAndStrcpy_s env h source in
  emit (Ev_mallocAndStrcpy_s source (fst r)) ;;
  assign (set_hostname (snd r)) ;;
  ret (fst r).

Definition free (s : c_string) : M unit := emit (Ev_free s).

(** *** destroy_openssl_connection_members (lines 66-83) *)

Definition destroy_openssl_connection_members : M unit :=
  i <- get_instance ;;
  when (negb (is_null (ssl i)))
       (SSL_free (ssl i) ;; assign (set_ssl NULL)) ;;
  i <- get_instance ;;
  when (negb (is_null (ssl_context i)))
       (SSL_CTX_free (ssl_context i) ;; assign (set_ssl_context NULL)) ;;
  i <- get_instance ;;
  when (sock i <? 0)
       (SSL_Socket_Close (sock i) ;; assign (set_sock (-1))).

(** *** create_and_connect_ssl (lines 86-178) *)

(** The loop of lines 135-156: [SSL_connect] is evaluated first, the bound
    on [retry] second.  The value returned is [retry] at loop exit. *)
Fixpoint connect_loop (fuel : nat) (s : pointer) (retry : Z) : M Z :=
  match fuel with
  | O => out_of_fuel
  | S fuel' =>
      r <- SSL_connect s ;;
      if negb (r =? 0) && (retry <? MAX_RETRY)
      then ThreadAPI_Sleep RETRY_DELAY ;; connect_loop fuel' s (retry + 1)
      else ret retry
  end.

Definition create_and_connect_ssl (fuel : nat) : M Z :=
  write_log (LogInfo "OpenSSL thread start...") ;;
  i <- get_instance ;;
  sock <- SSL_Socket_Create (hostname i) (port i) ;;
  result <-
    (if sock <? 0 then ret (FAILURE 100)
     else
       assign (set_sock sock) ;;
       ctx <- SSL_CTX_new ;;
       if is_null ctx then
         write_log (LogError "create new SSL CTX failed") ;; ret (FAILURE 111)
       else
         ssl <- SSL_new ctx ;;
         if is_null ssl then
           write_log (LogError "SSL_new failed") ;; ret (FAILURE 119)
         else
           SSL_CTX_set_default_read_buffer_len ctx OPENSSL_DEFAULT_READ_BUFFER_SIZE ;;
           r <- SSL_set_fd ssl sock ;;
           if negb (r =? 1) then
             write_log (LogError "SSL_set_fd failed") ;; ret (FAILURE 130)
           else
             retry <- connect_loop fuel ssl 0 ;;
             if retry >=? MAX_RETRY then
               write_log (LogError SSL_connect_failed_message) ;; ret (FAILURE 159)
             else
               assign (set_ssl ssl) ;;
               assign (set_ssl_context ctx) ;;
               ret 0) ;;
  when (negb (result =? 0)) destroy_openssl_connection_members ;;
  ret result.

(** *** send_handshake_bytes (lines 180-200) *)

(** The open callback is called with the state already OPEN, and the code
    of open runs on after it has returned (line 359).  As everywhere in
    this file, the callback is taken to return without calling back into
    the adapter. *)

Definition send_handshake_bytes (fuel : nat) : M Z :=
  r <- create_and_connect_ssl fuel ;;
  if negb (r =? 0) then ret (FAILURE 187)
  else
    assign (set_tlsio_state TLSIO_STATE_OPEN) ;;
    i <- get_instance ;;
    when (negb (is_null (on_io_open_complete i)))
         (emit (Ev_on_io_open_complete (on_io_open_complete i)
                                       (on_io_open_complete_context i) IO_OPEN_OK)) ;;
    ret 0.

(** *** decode_ssl_received_bytes (lines 203-219) *)

Definition decode_ssl_received_bytes : M Z :=
  i <- get_instance ;;
  r <- SSL_read (ssl i) 64 ;;
  let rcv_bytes := fst r in
  i <- get_instance ;;
  when (rcv_bytes >? 0)
       (emit (Ev_on_bytes_received (on_bytes_received i)
                                   (on_bytes_received_context i) (snd r) rcv_bytes)) ;;
  ret 0.

(** *** tlsio_openssl_create (lines 222-274) *)

Definition tlsio_openssl_create (io_create_parameters : option TLSIO_CONFIG)
  : M CONCRETE_IO_HANDLE :=
  match io_create_parameters with
  | None => write_log (LogError "NULL tls_io_config.") ;; ret NULL_HANDLE
  | Some tls_io_config =>
      assign (fun _ => zeroed_instance) ;;
      r <- mallocAndStrcpy_s_hostname (config_hostname tls_io_config) ;;
      if negb (r =? 0) then ret NULL_HANDLE
      else
        assign (set_port (config_port tls_io_config)) ;;
        assign (set_sock (-1)) ;;
        assign (set_ssl_context NULL) ;;
        assign (set_ssl NULL) ;;
        assign (set_certificate None) ;;
        assign (set_on_bytes_received NULL NULL) ;;
        assign (set_on_io_open_complete NULL NULL) ;;
        assign (set_on_io_close_complete NULL NULL) ;;
        assign (set_on_io_error NULL NULL) ;;
        assign (set_tlsio_state TLSIO_STATE_NOT_OPEN) ;;
        assign (set_x509certificate None) ;;
        assign (set_x509privatekey None) ;;
        ret ADDRESS_OF_tlsio_static_instance
  end.

(** *** tlsio_openssl_destroy (lines 277-300) *)

Definition is_Some {A} (o : option A) : bool :=
  match o with Some _ => true | None => false end.

Definition tlsio_openssl_destroy (tls_io : CONCRETE_IO_HANDLE) : M unit :=
  i <- get_instance ;;
  when (is_Some (certificate i))
       (free (certificate i) ;; assign (set_certificate None)) ;;
  i <- get_instance ;;
  when (is_Some (hostname i))
       (free (hostname i) ;; assign (set_hostname None)) ;;
  i <- get_instance ;;
  when (is_Some (x509certificate i))
       (free (x509certificate i) ;; assign (set_x509certificate None)) ;;
  i <- get_instance ;;
  when (is_Some (x509privatekey i))
       (free (x509privatekey i) ;; assign (set_x509privatekey None)).

(** *** tlsio_openssl_open (lines 304-364) *)

(** Lines 328-331 and 351-354: the stored error callback is called when it
    is not NULL. *)
Definition invoke_on_io_error : M unit :=
  i <- get_instance ;;
  when (negb (is_null (on_io_error i)))
       (emit (Ev_on_io_error (on_io_error i) (on_io_error_context i))).

Definition tlsio_openssl_open (fuel : nat) (tls_io : CONCRETE_IO_HANDLE)
    (on_io_open_complete on_io_open_complete_context : pointer)
    (on_bytes_received on_bytes_received_context : pointer)
    (on_io_error on_io_error_context : pointer) : M Z :=
  if is_null on_bytes_received then
    write_log (LogError "Required non-NULL parameter on_bytes_received is NULL") ;;
    ret (FAILURE 315)
  else
    i <- get_instance ;;
    if negb (TLSIO_STATE_eqb (tlsio_state i) TLSIO_STATE_NOT_OPEN) then
      assign (set_tlsio_state TLSIO_STATE_ERROR) ;;
      assign (set_on_io_error on_io_error on_io_error_context) ;;
      write_log (LogError "Invalid tlsio_state. Expected state is TLSIO_STATE_NOT_OPEN.") ;;
      invoke_on_io_error ;;
      ret (FAILURE 326)
    else
      assign (set_on_io_open_complete on_io_open_complete on_io_open_complete_context) ;;
      assign (set_on_bytes_received on_bytes_received on_bytes_received_context) ;;
      assign (set_on_io_error on_io_error on_io_error_context) ;;
      assign (set_tlsio_state TLSIO_STATE_OPENING) ;;
      r <- send_handshake_bytes fuel ;;
      if negb (r =? 0) then
        assign (set_tlsio_state TLSIO_STATE_ERROR) ;;
        write_log (LogError "send_handshake_bytes failed.") ;;
        invoke_on_io_error ;;
        ret (FAILURE 348)
      else
        assign (set_tlsio_state TLSIO_STATE_OPEN) ;;
        ret 0.

(** *** tlsio_openssl_close (lines 368-399) *)

(** Lines 393-396: the stored close callback is called when it is not
    NULL. *)
Definition invoke_on_io_close_complete : M unit :=
  i <- get_instance ;;
  when (negb (is_null (on_io_close_complete i)))
       (emit (Ev_on_io_close_complete (on_io_close_complete i)
                                      (on_io_close_complete_context i))).

Definition tlsio_openssl_close (tls_io : CONCRETE_IO_HANDLE)
    (on_io_close_complete callback_context : pointer) : M Z :=
  i <- get_instance ;;
  if TLSIO_STATE_eqb (tlsio_state i) TLSIO_STATE_NOT_OPEN
     || TLSIO_STATE_eqb (tlsio_state i) TLSIO_STATE_CLOSING
     || TLSIO_STATE_eqb (tlsio_state i) TLSIO_STATE_OPENING
  then
    assign (set_tlsio_state TLSIO_STATE_ERROR) ;;
    write_log (LogError "Invalid tlsio_state. Expected state is TLSIO_STATE_OPEN or TLSIO_STATE_ERROR.") ;;
    ret (FAILURE 379)
  else
    assign (set_tlsio_state TLSIO_STATE_CLOSING) ;;
    assign (set_on_io_close_complete on_io_close_complete callback_context) ;;
    i <- get_instance ;;
    SSL_shutdown (ssl i) ;;
    destroy_openssl_connection_members ;;
    assign (set_tlsio_state TLSIO_STATE_NOT_OPEN) ;;
    invoke_on_io_close_complete ;;
    ret 0.

(** *** tlsio_openssl_send (lines 401-483) *)

(** The loop of lines 427-467.  [size] is a [size_t], [total_written] and
    [res] are [int]s.  The value returned is [total_written] at loop exit;
    [size] is not read after the loop. *)
Fixpoint write_loop (fuel : nat) (size total_written : Z) : M Z :=
  if size >? 0 then
    match fuel with
    | O => out_of_fuel
    | S fuel' =>
        i <- get_instance ;;
        res <- SSL_write (ssl i) total_written (to_int size) ;;
        if res >? 0 then
          ThreadAPI_Sleep 5 ;;
          write_loop fuel' (to_size_t (size - res)) (to_int (total_written + res))
        else
          i <- get_instance ;;
          err <- SSL_get_error (ssl i) res ;;
          if (err =? SSL_ERROR_WANT_READ) || (err =? SSL_ERROR_WANT_WRITE) then
            ThreadAPI_Sleep 5 ;;
            write_loop fuel' size total_written
          else if err =? SSL_ERROR_NONE then
            write_log (LogInfo "Unexpected SSL_ERROR_NONE from SSL_write") ;;
            ret total_written
          else
            write_log (LogInfo "Error from SSL_write: %d") ;;
            ret total_written
    end
  else ret total_written.

(** The caller's buffer: NULL, or the bytes it points to. *)
Definition c_buffer : Type := option (list Byte.byte).

Definition tlsio_openssl_send (fuel : nat) (tls_io : CONCRETE_IO_HANDLE)
    (buffer : c_buffer) (size : Z)
    (on_send_complete callback_context : pointer) : M Z :=
  let bytes_to_send := size in
  match buffer with
  | None => write_log (LogError "NULL buffer.") ;; ret (FAILURE 409)
  | Some _ =>
      i <- get_instance ;;
      if negb (TLSIO_STATE_eqb (tlsio_state i) TLSIO_STATE_OPEN) then
        write_log (LogError "Invalid tlsio_state for send. Expected state is TLSIO_STATE_OPEN.") ;;
        ret (FAILURE 419)
      else
        total_written <- write_loop fuel size 0 ;;
        let all_sent := to_size_t total_written =? bytes_to_send in
        let sr := if all_sent then IO_SEND_OK else IO_SEND_ERROR in
        let result := if all_sent then 0 else -1 in
        when (negb (is_null on_send_complete))
             (emit (Ev_on_send_complete on_send_complete callback_context sr)) ;;
        ret result
  end.

(** *** tlsio_openssl_dowork (lines 486-496) *)

Definition tlsio_openssl_dowork (tls_io : CONCRETE_IO_HANDLE) : M unit :=
  i <- get_instance ;;
  if TLSIO_STATE_eqb (tlsio_state i) TLSIO_STATE_OPEN then
    decode_ssl_received_bytes ;; ret tt
  else
    write_log (LogError "Invalid tlsio_state for dowork. Expected state is TLSIO_STATE_OPEN.").

(** *** tlsio_openssl_setoption (lines 499-502) *)

Definition tlsio_openssl_setoption (tls_io : CONCRETE_IO_HANDLE)
    (optionName : c_string) (value : pointer) : M Z := ret 0.

End Adapter.

(** ** Reading traces *)

Definition is_send_complete (e : event) : bool :=
  match e with Ev_on_send_complete _ _ _ => true | _ => false end.

Definition is_socket_close (e : event) : bool :=
  match e with Ev_SSL_Socket_Close _ => true | _ => false end.

Definition is_write (e : event) : bool :=
  match e with Ev_SSL_write _ _ _ _ => true | _ => false end.

Definition count (p : event -> bool) (t : list event) : nat :=
  List.length (filter p t).

(** The bytes the transport accepted: the sum of the positive results of
    the [SSL_write] calls of a trace. *)
Fixpoint bytes_written (t : list event) : Z :=
  match t with
  | [] => 0
  | Ev_SSL_write _ _ _ r :: t' => (if r >? 0 then r else 0) + bytes_written t'
  | _ :: t' => bytes_written t'
  end.

(** ** Sample collaborators

    Concrete environments on which the adapter can be run. *)

Definition count_connect (t : list event) : nat :=
  count (fun e => match e with Ev_SSL_connect _ _ => true | _ => false end) t.

(** A reachable endpoint: socket 3, context and session allocated, the
    handshake completes at the attempt after [attempts_needed] refusals,
    every write accepts at most [chunk] bytes, reads return nothing, and the
    string copy succeeds. *)
Definition endpoint (attempts_needed : nat) (chunk : Z) : Environment :=
  mkEnvironment
    (fun _ _ _ => 3)
    (fun _ => Some 1%positive)
    (fun _ _ => Some 2%positive)
    (fun _ _ _ => 1)
    (fun t _ => if Nat.leb attempts_needed (count_connect t) then 0 else -1)
    (fun _ _ _ num => Z.min chunk num)
    (fun _ _ _ => SSL_ERROR_NONE)
    (fun _ _ _ => (0, []))
    (fun _ source => match source with
                     | Some s => (0, Some s)
                     | None => (22, None)
                     end).

(** An endpoint whose context allocation fails after the socket has been
    created. *)
Definition endpoint_without_context : Environment :=
  mkEnvironment
    (fun _ _ _ => 3)
    (fun _ => NULL)
    (fun _ _ => Some 2%positive)
    (fun _ _ _ => 1)
    (fun _ _ => 0)
    (fun _ _ _ num => num)
    (fun _ _ _ => SSL_ERROR_NONE)
    (fun _ _ _ => (0, []))
    (fun _ source => (0, source)).

(** An established session whose every write reports that it wants to read
    first. *)
Definition blocked_endpoint : Environment :=
  mkEnvironment
    (fun _ _ _ => 3)
    (fun _ => Some 1%positive)
    (fun _ _ => Some 2%positive)
    (fun _ _ _ => 1)
    (fun _ _ => 0)
    (fun _ _ _ _ => -1)
    (fun _ _ _ => SSL_ERROR_WANT_READ)
    (fun _ _ _ => (0, []))
    (fun _ source => (0, source)).

(** A session that accepts [accepted] bytes in one write and then reports
    the error status [err] on every later write. *)
Definition failing_endpoint (accepted err : Z) : Environment :=
  mkEnvironment
    (fun _ _ _ => 3)
    (fun _ => Some 1%positive)
    (fun _ _ => Some 2%positive)
    (fun _ _ _ => 1)
    (fun _ _ => 0)
    (fun t _ _ num => if (count is_write t =? 0)%nat then Z.min accepted num else -1)
    (fun _ _ _ => err)
    (fun _ _ _ => (0, []))
    (fun _ source => (0, source)).

Definition initial_world : World := mkWorld zeroed_instance [] [].

Definition example_config : option TLSIO_CONFIG :=
  Some (mkTLSIO_CONFIG (Some "example.com") 443).

(** The world a run leaves behind, whether it returned or not. *)
Definition world_of {A} (o : outcome A) : World :=
  match o with Returned _ w => w | OutOfFuel w => w end.

Definition value_of {A} (o : outcome A) : option A :=
  match o with Returned a _ => Some a | OutOfFuel _ => None end.

(** The world after [create] with the example configuration. *)
Definition created_world (env : Environment) : World :=
  world_of (tlsio_openssl_create env example_config initial_world).

(** The world after [create] and [open] with the callbacks 11 (open
    complete), 12 (bytes received) and 13 (error). *)
Definition opened (env : Environment) : outcome Z :=
  tlsio_openssl_open env 30 ADDRESS_OF_tlsio_static_instance
    (Some 11%positive) NULL (Some 12%positive) NULL (Some 13%positive) NULL
    (created_world env).

Definition opened_world (env : Environment) : World := world_of (opened env).

(** ** Vocabulary of the statements *)

Definition is_release (e : event) : bool :=
  match e with
  | Ev_SSL_free _ | Ev_SSL_CTX_free _ | Ev_SSL_Socket_Close _ => true
  | _ => false
  end.

(** The instance [create] leaves on success: everything cleared, the state
    NOT_OPEN, the socket -1, and the copied host name and the port. *)
Definition created_instance (host : c_string) (p : Z) : TLS_IO_INSTANCE :=
  mkTLS_IO_INSTANCE NULL NULL NULL NULL NULL NULL NULL NULL NULL NULL
                    TLSIO_STATE_NOT_OPEN host p None None None (-1).

Definition is_write_loop_event (e : event) : bool :=
  match e with
  | Ev_SSL_write _ _ _ _ | Ev_SSL_get_error _ _ _ | Ev_ThreadAPI_Sleep _ => true
  | _ => false
  end.

(** The two checks send() makes before it writes anything. *)
Definition send_preconditions (buffer : c_buffer) (w : World) : bool :=
  is_Some buffer
  && TLSIO_STATE_eqb (tlsio_state (tlsio_static_instance w)) TLSIO_STATE_OPEN.

(** Every write reports that nothing was written, and the status asked for
    afterwards is always one of the two retry statuses. *)
Definition always_wants_retry (env : Environment) : Prop :=
  (forall t s offset num, env_SSL_write env t s offset num <= 0)
  /\ (forall t s res,
         env_SSL_get_error env t s res = SSL_ERROR_WANT_READ
         \/ env_SSL_get_error env t s res = SSL_ERROR_WANT_WRITE).

(** The contract of [SSL_write] the adapter relies on: a write never
    reports more bytes than it was asked to write. *)
Definition SSL_write_bounded (env : Environment) : Prop :=
  forall t s offset num, env_SSL_write env t s offset num <= Z.max 0 num.

(** The variables of the loop, against the size requested: before the first
    accepted byte nothing has moved; afterwards the request fits an [int]
    and the two variables split it. *)
Definition write_loop_invariant (bytes_to_send size total_written : Z) : Prop :=
  (size = bytes_to_send /\ total_written = 0)
  \/ (bytes_to_send <= INT_MAX /\ 0 <= total_written /\ 0 <= size
      /\ total_written + size = bytes_to_send).

(** The calls of one refused attempt, for each result in [rs]: the attempt
    and the sleep that follows it. *)
Definition retry_events (s : pointer) (rs : list Z) : list event :=
  flat_map (fun r => [Ev_SSL_connect s r; Ev_ThreadAPI_Sleep RETRY_DELAY]) rs.

Definition is_handshake_event (e : event) : bool :=
  match e with
  | Ev_SSL_connect _ _ | Ev_ThreadAPI_Sleep _ => true
  | _ => false
  end.

Definition is_open_complete (e : event) : bool :=
  match e with Ev_on_io_open_complete _ _ _ => true | _ => false end.

(** ** The adapter as a caller drives it *)

(** One call through the interface table
    [tlsio_openssl_interface_description] (lines 511-521), with its
    arguments. *)
Inductive api_call : Type :=
| Call_create (io_create_parameters : option TLSIO_CONFIG)
| Call_destroy (tls_io : CONCRETE_IO_HANDLE)
| Call_open (tls_io : CONCRETE_IO_HANDLE)
    (on_io_open_complete on_io_open_complete_context : pointer)
    (on_bytes_received on_bytes_received_context : pointer)
    (on_io_error on_io_error_context : pointer)
| Call_close (tls_io : CONCRETE_IO_HANDLE)
    (on_io_close_complete callback_context : pointer)
| Call_send (tls_io : CONCRETE_IO_HANDLE) (buffer : c_buffer) (size : Z)
    (on_send_complete callback_context : pointer)
| Call_dowork (tls_io : CONCRETE_IO_HANDLE)
| Call_setoption (tls_io : CONCRETE_IO_HANDLE) (optionName : c_string)
    (value : pointer).

(** The call made, its result dropped. *)
Definition perform (env : Environment) (fuel : nat) (c : api_call) : M unit :=
  match c with
  | Call_create p => bind (tlsio_openssl_create env p) (fun _ => ret tt)
  | Call_destroy h => tlsio_openssl_destroy h
  | Call_open h oc occ br brc oe oec =>
      bind (tlsio_openssl_open env fuel h oc occ br brc oe oec) (fun _ => ret tt)
  | Call_close h cb ctx => bind (tlsio_openssl_close h cb ctx) (fun _ => ret tt)
  | Call_send h b n cb ctx =>
      bind (tlsio_openssl_send env fuel h b n cb ctx) (fun _ => ret tt)
  | Call_dowork h => tlsio_openssl_dowork env h
  | Call_setoption h name v => bind (tlsio_openssl_setoption h name v) (fun _ => ret tt)
  end.

(** A caller's calls, one after the other. *)
Fixpoint perform_all (env : Environment) (fuel : nat) (cs : list api_call) : M unit :=
  match cs with
  | [] => ret tt
  | c :: cs' => bind (perform env fuel c) (fun _ => perform_all env fuel cs')
  end.

(** What the state of the instance says about its other fields between two
    calls. *)
Definition consistent (i : TLS_IO_INSTANCE) : Prop :=
  match tlsio_state i with
  | TLSIO_STATE_NOT_OPEN => ssl i = NULL /\ ssl_context i = NULL
  | TLSIO_STATE_OPEN =>
      ssl i <> NULL /\ ssl_context i <> NULL /\ 0 <= sock i
      /\ on_bytes_received i <> NULL
  | TLSIO_STATE_ERROR => True
  | TLSIO_STATE_OPENING | TLSIO_STATE_CLOSING => False
  end.

Definition is_callback (e : event) : bool :=
  match e with
  | Ev_on_io_open_complete _ _ _ | Ev_on_io_error _ _
  | Ev_on_io_close_complete _ _ | Ev_on_send_complete _ _ _
  | Ev_on_bytes_received _ _ _ _ => true
  | _ => false
  end.

(** The event is not a call through a NULL function pointer. *)
Definition calls_a_function (e : event) : bool :=
  match e with
  | Ev_on_io_open_complete cb _ _ | Ev_on_io_error cb _
  | Ev_on_io_close_complete cb _ | Ev_on_send_complete cb _ _
  | Ev_on_bytes_received cb _ _ _ => negb (is_null cb)
  | _ => true
  end.

Definition is_io_error (e : event) : bool :=
  match e with Ev_on_io_error _ _ => true | _ => false end.

Definition is_free (e : event) : bool :=
  match e with Ev_free _ => true | _ => false end.

(** The instance with the three fields of the connection blanked: two
    instances that agree on it differ at most in session, context and
    socket. *)
Definition without_connection (i : TLS_IO_INSTANCE) : TLS_IO_INSTANCE :=
  set_sock 0 (set_ssl_context NULL (set_ssl NULL i)).

(** The instance with its four owned strings blanked. *)
Definition without_strings (i : TLS_IO_INSTANCE) : TLS_IO_INSTANCE :=
  set_x509privatekey None
    (set_x509certificate None (set_hostname None (set_certificate None i))).

(** The writes of a trace walk through a request of [bytes_to_send] bytes:
    each write starts where the accepted bytes end and asks for all that is
    left. *)
Fixpoint writes_the_unsent_suffix (bytes_to_send sent : Z) (t : list event) : Prop :=
  match t with
  | [] => True
  | Ev_SSL_write _ offset num r :: t' =>
      offset = sent /\ num = bytes_to_send - sent
      /\ writes_the_unsent_suffix bytes_to_send (sent + (if r >? 0 then r else 0)) t'
  | _ :: t' => writes_the_unsent_suffix bytes_to_send sent t'
  end.

Definition is_not_callback (e : event) : bool := negb (is_callback e).

(** What holds of the world between two calls: the instance is consistent
    and no call so far went through a NULL function pointer. *)
Definition sound (w : World) : Prop :=
  consistent (tlsio_static_instance w)
  /\ forallb calls_a_function (trace w) = true.

(** A caller's session: create, open, send four bytes, poll, close, close
    again, destroy. *)
Definition example_calls : list api_call :=
  [Call_create example_config;
   Call_open ADDRESS_OF_tlsio_static_instance (Some 11%positive) NULL
     (Some 12%positive) NULL (Some 13%positive) NULL;
   Call_send ADDRESS_OF_tlsio_static_instance (Some []) 4 (Some 14%positive) NULL;
   Call_dowork ADDRESS_OF_tlsio_static_instance;
   Call_close ADDRESS_OF_tlsio_static_instance (Some 15%positive) NULL;
   Call_close ADDRESS_OF_tlsio_static_instance NULL NULL;
   Call_destroy ADDRESS_OF_tlsio_static_instance].

(** The milliseconds a trace spends in [ThreadAPI_Sleep]. *)
Fixpoint time_slept (t : list event) : Z :=
  match t with
  | [] => 0
  | Ev_ThreadAPI_Sleep ms :: t' => ms + time_slept t'
  | _ :: t' => time_slept t'
  end.

(** What the collaborators answer on the way to the handshake, when each
    step is asked in turn from the history [t] (lines 97-127): the socket
    for [host] and [p], the context, the session, and the result of binding
    the session to the socket; and the calls these answers belong to. *)
Record handshake_setup : Type := mkHandshake_setup {
  su_sock : Z;
  su_ctx : pointer;
  su_ssl : pointer;
  su_fd : Z;
  su_events : list event
}.

Definition setup_of (env : Environment) (t : list event) (host : c_string) (p : Z)
  : handshake_setup :=
  let sk := env_SSL_Socket_Create env t host p in
  let t1 := t ++ [Ev_SSL_Socket_Create host p sk] in
  let ctx := env_SSL_CTX_new env t1 in
  let t2 := t1 ++ [Ev_SSL_CTX_new ctx] in
  let s := env_SSL_new env t2 ctx in
  let t3 := (t2 ++ [Ev_SSL_new ctx s])
            ++ [Ev_SSL_CTX_set_default_read_buffer_len ctx OPENSSL_DEFAULT_READ_BUFFER_SIZE] in
  let fd := env_SSL_set_fd env t3 s sk in
  mkHandshake_setup sk ctx s fd
    [Ev_SSL_Socket_Create host p sk; Ev_SSL_CTX_new ctx; Ev_SSL_new ctx s;
     Ev_SSL_CTX_set_default_read_buffer_len ctx OPENSSL_DEFAULT_READ_BUFFER_SIZE;
     Ev_SSL_set_fd s sk fd].

(** The four answers let the code reach the handshake loop: the socket is
    not negative, context and session are not NULL, and the binding
    returned 1. *)
Definition setup_succeeds (u : handshake_setup) : bool :=
  negb (su_sock u <? 0) && negb (is_null (su_ctx u)) && negb (is_null (su_ssl u))
  && (su_fd u =? 1).

(** [rs] are the answers of the transport to successive connect attempts on
    session [s], the first made at history [t] and each next one after the
    attempt before it and the sleep that followed. *)
Fixpoint refused_answers (env : Environment) (s : pointer) (t : list event)
    (rs : list Z) : Prop :=
  match rs with
  | [] => True
  | r :: rs' =>
      r = env_SSL_connect env t s
      /\ refused_answers env s
           ((t ++ [Ev_SSL_connect s r]) ++ [Ev_ThreadAPI_Sleep RETRY_DELAY]) rs'
  end.

(** A session that has been created and opened and is still open: create,
    open, send four bytes, poll. *)
Definition example_calls_left_open : list api_call :=
  [Call_create example_config;
   Call_open ADDRESS_OF_tlsio_static_instance (Some 11%positive) NULL
     (Some 12%positive) NULL (Some 13%positive) NULL;
   Call_send ADDRESS_OF_tlsio_static_instance (Some []) 4 (Some 14%positive) NULL;
   Call_dowork ADDRESS_OF_tlsio_static_instance].

(** ** Proof support *)

Ltac unfold_calls :=
  unfold SSL_Socket_Create, SSL_Socket_Close, SSL_CTX_new, SSL_CTX_free,
    SSL_CTX_set_default_read_buffer_len, SSL_new, SSL_free, SSL_set_fd,
    SSL_connect, SSL_shutdown, SSL_write, SSL_get_error, SSL_read,
    ThreadAPI_Sleep, mallocAndStrcpy_s_hostname, free in *.

Ltac unfold_monad :=
  unfold when, bind, ret, out_of_fuel, get_instance, assign, history, emit,
    write_log in *.

Ltac run :=
  unfold_calls; unfold_monad; cbn [fst snd tlsio_static_instance trace log] in *.

Lemma TLSIO_STATE_eqb_eq (a b : TLSIO_STATE) :
  TLSIO_STATE_eqb a b = true <-> a = b.
Proof.
  split.
  - destruct a, b; simpl; intros H; try reflexivity; discriminate H.
  - intros ->. destruct b; reflexivity.
Qed.

Lemma TLSIO_STATE_eqb_neq (a b : TLSIO_STATE) :
  TLSIO_STATE_eqb a b = false <-> a <> b.
Proof.
  split.
  - intros H E. apply TLSIO_STATE_eqb_eq in E. congruence.
  - intros H. destruct (TLSIO_STATE_eqb a b) eqn:E; [|reflexivity].
    apply TLSIO_STATE_eqb_eq in E. contradiction.
Qed.

Lemma is_null_false (p : pointer) : is_null p = false <-> p <> NULL.
Proof.
  destruct p; simpl; split; intros H; try congruence; try discriminate.
  exfalso. apply H. reflexivity.
Qed.

Lemma FAILURE_nonzero (line : positive) : FAILURE line <> 0.
Proof. unfold FAILURE. discriminate. Qed.

Lemma count_app (p : event -> bool) (a b : list event) :
  count p (a ++ b) = (count p a + count p b)%nat.
Proof. unfold count. rewrite filter_app, length_app. reflexivity. Qed.

Lemma bytes_written_app (a b : list event) :
  bytes_written (a ++ b) = bytes_written a + bytes_written b.
Proof.
  induction a as [|e a IH]; simpl; [reflexivity|].
  destruct e; rewrite ?IH; try reflexivity. lia.
Qed.

(** ** open in a state other than NOT_OPEN *)

(** C5. open() with a non-null on_bytes_received, called while the state is
    not NOT_OPEN, returns the failure result, leaves the state ERROR, and
    calls the on_error callback passed to this very call (when it is not
    NULL) before it returns; nothing else leaves the adapter. *)
Theorem open_outside_NOT_OPEN_fails
    (env : Environment) (fuel : nat) (tls_io : CONCRETE_IO_HANDLE)
    (on_io_open_complete on_io_open_complete_context : pointer)
    (on_bytes_received on_bytes_received_context : pointer)
    (on_io_error on_io_error_context : pointer) (w : World) :
  on_bytes_received <> NULL ->
  tlsio_state (tlsio_static_instance w) <> TLSIO_STATE_NOT_OPEN ->
  exists r w',
    tlsio_openssl_open env fuel tls_io
      on_io_open_complete on_io_open_complete_context
      on_bytes_received on_bytes_received_context
      on_io_error on_io_error_context w = Returned r w'
    /\ r <> 0
    /\ tlsio_state (tlsio_static_instance w') = TLSIO_STATE_ERROR
    /\ trace w' = trace w ++ match on_io_error with
                             | Some _ => [Ev_on_io_error on_io_error on_io_error_context]
                             | None => []
                             end.
Proof.
  intros Hrecv Hstate.
  apply is_null_false in Hrecv. apply TLSIO_STATE_eqb_neq in Hstate.
  unfold tlsio_openssl_open, invoke_on_io_error. rewrite Hrecv. run.
  rewrite Hstate. cbn.
  destruct on_io_error as [cb|]; cbn.
  - eexists _, _. split; [reflexivity|]. cbn.
    repeat split. apply FAILURE_nonzero.
  - eexists _, _. split; [reflexivity|]. cbn.
    repeat split; [apply FAILURE_nonzero | now rewrite app_nil_r].
Qed.

Lemma open_outside_NOT_OPEN_fails_witness :
  exists r w',
    tlsio_openssl_open (endpoint 2 3) 30 ADDRESS_OF_tlsio_static_instance
      (Some 11%positive) NULL (Some 12%positive) NULL (Some 13%positive) NULL
      (opened_world (endpoint 2 3)) = Returned r w'
    /\ r <> 0
    /\ tlsio_state (tlsio_static_instance w') = TLSIO_STATE_ERROR
    /\ trace w' = trace (opened_world (endpoint 2 3))
                  ++ [Ev_on_io_error (Some 13%positive) NULL].
Proof.
  apply (open_outside_NOT_OPEN_fails (endpoint 2 3) 30
           ADDRESS_OF_tlsio_static_instance (Some 11%positive) NULL
           (Some 12%positive) NULL (Some 13%positive) NULL
           (opened_world (endpoint 2 3))).
  - discriminate.
  - vm_compute. discriminate.
Defined.

(** ** dowork outside OPEN *)

(** C7. dowork() called while the state is not OPEN returns without calling
    anything: the instance (its state and every other field) and the trace
    of calls and callbacks are unchanged; only a line is logged. *)
Theorem dowork_outside_OPEN_is_silent
    (env : Environment) (tls_io : CONCRETE_IO_HANDLE) (w : World) :
  tlsio_state (tlsio_static_instance w) <> TLSIO_STATE_OPEN ->
  exists w',
    tlsio_openssl_dowork env tls_io w = Returned tt w'
    /\ tlsio_static_instance w' = tlsio_static_instance w
    /\ trace w' = trace w
    /\ log w' = log w ++ [LogError "Invalid tlsio_state for dowork. Expected state is TLSIO_STATE_OPEN."].
Proof.
  intros Hstate. apply TLSIO_STATE_eqb_neq in Hstate.
  unfold tlsio_openssl_dowork. run. rewrite Hstate.
  eexists. split; [reflexivity|]. cbn. repeat split.
Qed.

Lemma dowork_outside_OPEN_is_silent_witness :
  exists w',
    tlsio_openssl_dowork (endpoint 2 3) ADDRESS_OF_tlsio_static_instance
      (created_world (endpoint 2 3)) = Returned tt w'
    /\ tlsio_static_instance w' = tlsio_static_instance (created_world (endpoint 2 3))
    /\ trace w' = trace (created_world (endpoint 2 3))
    /\ log w' = log (created_world (endpoint 2 3))
                ++ [LogError "Invalid tlsio_state for dowork. Expected state is TLSIO_STATE_OPEN."].
Proof.
  apply (dowork_outside_OPEN_is_silent (endpoint 2 3)
           ADDRESS_OF_tlsio_static_instance (created_world (endpoint 2 3))).
  vm_compute. discriminate.
Defined.

(** ** The handle argument *)

(** C10. open, close, send, dowork and destroy do not look at their handle
    argument: with any two handles (NULL included), the same remaining
    arguments and the same world, each of them yields the same outcome,
    that is the same return value, the same calls and callbacks in the same
    order, and the same instance. *)
Theorem handle_argument_is_ignored
    (env : Environment) (fuel : nat) (h1 h2 : CONCRETE_IO_HANDLE)
    (cb1 ctx1 cb2 ctx2 cb3 ctx3 : pointer)
    (buffer : c_buffer) (size : Z) (w : World) :
  tlsio_openssl_open env fuel h1 cb1 ctx1 cb2 ctx2 cb3 ctx3 w
    = tlsio_openssl_open env fuel h2 cb1 ctx1 cb2 ctx2 cb3 ctx3 w
  /\ tlsio_openssl_close h1 cb1 ctx1 w = tlsio_openssl_close h2 cb1 ctx1 w
  /\ tlsio_openssl_send env fuel h1 buffer size cb1 ctx1 w
     = tlsio_openssl_send env fuel h2 buffer size cb1 ctx1 w
  /\ tlsio_openssl_dowork env h1 w = tlsio_openssl_dowork env h2 w
  /\ tlsio_openssl_destroy h1 w = tlsio_openssl_destroy h2 w.
Proof. repeat split. Qed.

(** ** Release of the session, the context and the socket *)

(** What [destroy_openssl_connection_members] does, for every instance: the
    session and the context are freed when the instance holds them, and
    [SSL_Socket_Close] is called exactly when the stored descriptor is
    negative. *)
Lemma destroy_openssl_connection_members_spec (w : World) :
  let i := tlsio_static_instance w in
  destroy_openssl_connection_members w =
    Returned tt
      (mkWorld
         (set_sock (if sock i <? 0 then -1 else sock i)
            (set_ssl_context NULL (set_ssl NULL i)))
         (trace w
            ++ (if is_null (ssl i) then [] else [Ev_SSL_free (ssl i)])
            ++ (if is_null (ssl_context i) then [] else [Ev_SSL_CTX_free (ssl_context i)])
            ++ (if sock i <? 0 then [Ev_SSL_Socket_Close (sock i)] else []))
         (log w)).
Proof.
  destruct w as [i t l]. cbn. unfold destroy_openssl_connection_members. run.
  destruct i as [a1 a2 a3 a4 a5 a6 a7 a8 s c st h p ce x1 x2 so]. cbn.
  destruct s, c; cbn; destruct (so <? 0); cbn;
    rewrite <- ?app_assoc; cbn; rewrite ?app_nil_r; reflexivity.
Qed.

(** A positive descriptor, as [SSL_Socket_Create] returns on success, is
    therefore never passed to [SSL_Socket_Close]. *)
Lemma destroy_openssl_connection_members_keeps_socket (w : World) :
  0 <= sock (tlsio_static_instance w) ->
  let w' := world_of (destroy_openssl_connection_members w) in
  sock (tlsio_static_instance w') = sock (tlsio_static_instance w)
  /\ count is_socket_close (trace w') = count is_socket_close (trace w).
Proof.
  intros Hsock. rewrite destroy_openssl_connection_members_spec. cbn -[count].
  assert (E : (sock (tlsio_static_instance w) <? 0) = false) by (apply Z.ltb_ge; lia).
  rewrite E. split; [reflexivity|].
  cbn [trace]. rewrite !count_app.
  destruct (is_null (ssl (tlsio_static_instance w))),
           (is_null (ssl_context (tlsio_static_instance w))); cbn; lia.
Qed.

(** C1, at the failing inputs.  First run: the socket is created
    (descriptor 3) and the context allocation fails.  Second run: socket,
    context and session are created and the handshake runs out of retries.
    In both, open() reports failure and calls on_error, yet nothing has been
    released: the trace holds no [SSL_free], no [SSL_CTX_free] and no
    [SSL_Socket_Close], and the instance still stores descriptor 3. *)
Theorem failed_open_releases_nothing :
  (exists r w',
      opened endpoint_without_context = Returned r w'
      /\ r <> 0
      /\ In (Ev_SSL_Socket_Create (Some "example.com") 443 3) (trace w')
      /\ In (Ev_on_io_error (Some 13%positive) NULL) (trace w')
      /\ count is_release (trace w') = 0%nat
      /\ sock (tlsio_static_instance w') = 3)
  /\ (exists r w',
      opened (endpoint 25 3) = Returned r w'
      /\ r <> 0
      /\ In (Ev_SSL_Socket_Create (Some "example.com") 443 3) (trace w')
      /\ In (Ev_SSL_CTX_new (Some 1%positive)) (trace w')
      /\ In (Ev_SSL_new (Some 1%positive) (Some 2%positive)) (trace w')
      /\ In (Ev_on_io_error (Some 13%positive) NULL) (trace w')
      /\ count is_release (trace w') = 0%nat
      /\ sock (tlsio_static_instance w') = 3).
Proof.
  split.
  - eexists _, _. split; [vm_compute; reflexivity|].
    cbn. repeat split; try discriminate; auto 10.
  - eexists _, _. split; [vm_compute; reflexivity|].
    cbn. repeat split; try discriminate; auto 10.
    all: repeat (first [left; reflexivity | right]).
Qed.

(** ** close *)

(** close() in NOT_OPEN, OPENING or CLOSING: failure, state ERROR, nothing
    called. *)
Lemma close_rejected (tls_io : CONCRETE_IO_HANDLE) (cb ctx : pointer) (w : World) :
  tlsio_state (tlsio_static_instance w) <> TLSIO_STATE_OPEN ->
  tlsio_state (tlsio_static_instance w) <> TLSIO_STATE_ERROR ->
  exists r w',
    tlsio_openssl_close tls_io cb ctx w = Returned r w'
    /\ r <> 0
    /\ tlsio_state (tlsio_static_instance w') = TLSIO_STATE_ERROR
    /\ trace w' = trace w.
Proof.
  intros H1 H2. unfold tlsio_openssl_close. run.
  destruct (tlsio_state (tlsio_static_instance w)) eqn:E; try contradiction; cbn;
    eexists _, _; (split; [reflexivity|]); cbn; repeat split; apply FAILURE_nonzero.
Qed.

(** close() in OPEN or ERROR: the session is shut down, the members are
    destroyed as [destroy_openssl_connection_members] does it, the state is
    NOT_OPEN, the result is 0 and the callback is called once when it is
    not NULL. *)
Lemma close_accepted (tls_io : CONCRETE_IO_HANDLE) (cb ctx : pointer) (w : World) :
  let i := tlsio_static_instance w in
  tlsio_state i = TLSIO_STATE_OPEN \/ tlsio_state i = TLSIO_STATE_ERROR ->
  exists w',
    tlsio_openssl_close tls_io cb ctx w = Returned 0 w'
    /\ tlsio_state (tlsio_static_instance w') = TLSIO_STATE_NOT_OPEN
    /\ ssl (tlsio_static_instance w') = NULL
    /\ ssl_context (tlsio_static_instance w') = NULL
    /\ sock (tlsio_static_instance w') = (if sock i <? 0 then -1 else sock i)
    /\ trace w' =
         trace w ++ [Ev_SSL_shutdown (ssl i)]
           ++ (if is_null (ssl i) then [] else [Ev_SSL_free (ssl i)])
           ++ (if is_null (ssl_context i) then [] else [Ev_SSL_CTX_free (ssl_context i)])
           ++ (if sock i <? 0 then [Ev_SSL_Socket_Close (sock i)] else [])
           ++ (if is_null cb then [] else [Ev_on_io_close_complete cb ctx]).
Proof.
  intros i Hstate. unfold tlsio_openssl_close, invoke_on_io_close_complete.
  unfold bind at 1. unfold get_instance at 1.
  assert (E : TLSIO_STATE_eqb (tlsio_state (tlsio_static_instance w)) TLSIO_STATE_NOT_OPEN
              || TLSIO_STATE_eqb (tlsio_state (tlsio_static_instance w)) TLSIO_STATE_CLOSING
              || TLSIO_STATE_eqb (tlsio_state (tlsio_static_instance w)) TLSIO_STATE_OPENING
              = false).
  { fold i. destruct Hstate as [-> | ->]; reflexivity. }
  rewrite E. clear E.
  unfold bind, assign, get_instance, SSL_shutdown, emit, ret, when.
  cbn -[destroy_openssl_connection_members].
  rewrite destroy_openssl_connection_members_spec. cbn. fold i.
  destruct cb as [c|]; cbn; eexists; (split; [reflexivity|]); cbn;
    repeat split; rewrite <- ?app_assoc; cbn; rewrite ?app_nil_r; reflexivity.
Qed.

(** C6, at the failing input: close() on the connection that open() has just
    established (state OPEN, session 2, context 1, socket 3).  It returns 0,
    leaves NOT_OPEN, shuts the session down, frees session and context and
    calls the callback once; but the socket is not released: no
    [SSL_Socket_Close] is made and the instance keeps descriptor 3. *)
Theorem close_leaves_the_socket_open :
  let w := opened_world (endpoint 2 3) in
  tlsio_state (tlsio_static_instance w) = TLSIO_STATE_OPEN
  /\ sock (tlsio_static_instance w) = 3
  /\ exists w',
      tlsio_openssl_close ADDRESS_OF_tlsio_static_instance (Some 15%positive) NULL w
        = Returned 0 w'
      /\ tlsio_state (tlsio_static_instance w') = TLSIO_STATE_NOT_OPEN
      /\ trace w' = trace w ++ [Ev_SSL_shutdown (Some 2%positive);
                                Ev_SSL_free (Some 2%positive);
                                Ev_SSL_CTX_free (Some 1%positive);
                                Ev_on_io_close_complete (Some 15%positive) NULL]
      /\ count is_socket_close (trace w') = 0%nat
      /\ sock (tlsio_static_instance w') = 3.
Proof.
  cbv zeta. split; [vm_compute; reflexivity|]. split; [vm_compute; reflexivity|].
  eexists. split; [vm_compute; reflexivity|].
  repeat split.
Qed.

(** ** create *)

(** C8, the claim at a concrete input: a second create(), made while the
    handle of the first has not been destroyed, is not answered with the
    NULL handle. *)
Lemma create_again_is_not_rejected :
  value_of (tlsio_openssl_create (endpoint 2 3) example_config
              (created_world (endpoint 2 3)))
  <> Some NULL_HANDLE.
Proof. vm_compute. discriminate. Qed.

(** C8, amended.  There is one instance: the only non-null handle create()
    returns is the address of the static instance.  create() does not look
    at what the instance held before, so an earlier create() that was never
    destroyed does not make it fail: it returns NULL exactly when the
    configuration is NULL or the host name copy fails, and otherwise it
    returns the static instance, re-initialised. *)
Theorem create_reinitialises_the_static_instance
    (env : Environment) (io_create_parameters : option TLSIO_CONFIG) (w : World) :
  exists h w',
    tlsio_openssl_create env io_create_parameters w = Returned h w'
    /\ match io_create_parameters with
       | None => h = NULL_HANDLE
       | Some cfg =>
           let copy := env_mallocAndStrcpy_s env (trace w) (config_hostname cfg) in
           if fst copy =? 0
           then h = ADDRESS_OF_tlsio_static_instance
                /\ tlsio_static_instance w' = created_instance (snd copy) (config_port cfg)
           else h = NULL_HANDLE
       end.
Proof.
  unfold tlsio_openssl_create. destruct io_create_parameters as [cfg|]; run.
  - cbn. destruct (fst (env_mallocAndStrcpy_s env (trace w) (config_hostname cfg)) =? 0);
      cbn; eexists _, _; (split; [reflexivity|]); cbn; auto.
  - eexists _, _. split; reflexivity.
Qed.

(** ** The write loop of send *)

(** The loop only writes, asks for the error status and sleeps, and it never
    assigns to the instance; this holds for the state it has reached when
    fuel runs out as well. *)
Lemma write_loop_frame (env : Environment) :
  forall (fuel : nat) (size total_written : Z) (w : World),
    let w' := world_of (write_loop env fuel size total_written w) in
    tlsio_static_instance w' = tlsio_static_instance w
    /\ exists added, trace w' = trace w ++ added
                     /\ forallb is_write_loop_event added = true.
Proof.
  induction fuel as [|fuel IH]; intros size tw w; cbv zeta.
  - cbn. destruct (size >? 0); cbn; (split; [reflexivity|]);
      exists []; now rewrite app_nil_r.
  - cbn [write_loop]. destruct (size >? 0).
    2:{ cbn. split; [reflexivity|]. exists []. now rewrite app_nil_r. }
    run.
    set (res := env_SSL_write env (trace w) (ssl (tlsio_static_instance w)) tw (to_int size)).
    destruct (res >? 0); cbn [tlsio_static_instance trace log].
    + match goal with
      | |- context [write_loop env fuel ?s ?t ?w0] =>
          destruct (IH s t w0) as [Hi [added [Ht Ha]]]
      end.
      cbn [tlsio_static_instance trace log] in Hi, Ht.
      split; [exact Hi|]. rewrite Ht.
      eexists. rewrite <- !app_assoc. split; [reflexivity|].
      cbn. exact Ha.
    + match goal with
      | |- context [if ?c then _ else _] => destruct c
      end; cbn [tlsio_static_instance trace log].
      * match goal with
        | |- context [write_loop env fuel ?s ?t ?w0] =>
            destruct (IH s t w0) as [Hi [added [Ht Ha]]]
        end.
        cbn [tlsio_static_instance trace log] in Hi, Ht.
        split; [exact Hi|]. rewrite Ht.
        eexists. rewrite <- !app_assoc. split; [reflexivity|].
        cbn. exact Ha.
      * match goal with
        | |- context [if ?c then _ else _] => destruct c
        end; cbn; (split; [reflexivity|]); eexists;
          rewrite <- !app_assoc; (split; [reflexivity|]); reflexivity.
Qed.

Lemma count_send_complete_loop_events (added : list event) :
  forallb is_write_loop_event added = true ->
  count is_send_complete added = 0%nat.
Proof.
  induction added as [|e added IH]; [reflexivity|].
  cbn [forallb]. intros H. apply andb_prop in H. destruct H as [He Ha].
  unfold count in *. destruct e; try discriminate He; cbn; auto.
Qed.

Lemma write_loop_calls_no_completion (env : Environment)
    (fuel : nat) (size total_written : Z) (w : World) :
  count is_send_complete (trace (world_of (write_loop env fuel size total_written w)))
  = count is_send_complete (trace w).
Proof.
  destruct (write_loop_frame env fuel size total_written w) as [_ [added [Ht Ha]]].
  rewrite Ht, count_app, (count_send_complete_loop_events _ Ha). lia.
Qed.

(** ** The completion callback of send *)

(** C4, the claim at a concrete input: send() with a NULL buffer and the
    completion callback 14, on the open connection.  The call returns, and
    the callback has not been called once: the trace holds no completion
    call at all. *)
Lemma send_with_null_buffer_skips_the_callback :
  let o := tlsio_openssl_send (endpoint 2 3) 10 ADDRESS_OF_tlsio_static_instance
             None 4 (Some 14%positive) NULL (opened_world (endpoint 2 3)) in
  value_of o = Some (FAILURE 409)
  /\ count is_send_complete (trace (world_of o)) <> 1%nat.
Proof. vm_compute. split; [reflexivity | discriminate]. Qed.

(** C4, amended.  With a non-null completion callback: a send() that fails
    one of its preconditions (NULL buffer, or state not OPEN) returns
    failure and calls nothing; a send() that passes them calls the callback
    exactly once, as its last action, as soon as its write loop has ended. *)
Theorem send_completion_called_once_past_the_preconditions
    (env : Environment) (fuel : nat) (tls_io : CONCRETE_IO_HANDLE)
    (buffer : c_buffer) (size : Z)
    (on_send_complete callback_context : pointer) (w : World) :
  on_send_complete <> NULL ->
  (send_preconditions buffer w = false ->
   exists r w',
     tlsio_openssl_send env fuel tls_io buffer size on_send_complete callback_context w
       = Returned r w'
     /\ r <> 0
     /\ trace w' = trace w)
  /\ (send_preconditions buffer w = true ->
      forall tw w1,
        write_loop env fuel size 0 w = Returned tw w1 ->
        exists r sr w',
          tlsio_openssl_send env fuel tls_io buffer size on_send_complete callback_context w
            = Returned r w'
          /\ trace w' = trace w1 ++ [Ev_on_send_complete on_send_complete callback_context sr]
          /\ count is_send_complete (trace w')
             = S (count is_send_complete (trace w))).
Proof.
  intros Hcb. apply is_null_false in Hcb.
  unfold send_preconditions, tlsio_openssl_send. split.
  - intros Hpre. destruct buffer as [data|]; run.
    + cbn in Hpre. rewrite Hpre. cbn.
      eexists _, _. split; [reflexivity|]. split; [apply FAILURE_nonzero | reflexivity].
    + eexists _, _. split; [reflexivity|]. split; [apply FAILURE_nonzero | reflexivity].
  - intros Hpre tw w1 Hloop. destruct buffer as [data|]; [|discriminate Hpre].
    cbn in Hpre. run. rewrite Hpre. cbn [negb]. rewrite Hloop, Hcb. cbn [negb].
    eexists _, _, _. split; [reflexivity|]. cbn [trace]. split; [reflexivity|].
    rewrite count_app.
    pose proof (write_loop_calls_no_completion env fuel size 0 w) as Hc.
    rewrite Hloop in Hc. cbn [world_of] in Hc. rewrite Hc. cbn. lia.
Qed.

Lemma send_completion_called_once_past_the_preconditions_witness :
  (exists r sr w',
      tlsio_openssl_send (endpoint 2 3) 10 ADDRESS_OF_tlsio_static_instance
        (Some []) 4 (Some 14%positive) NULL (opened_world (endpoint 2 3))
        = Returned r w'
      /\ trace w' = trace (world_of (write_loop (endpoint 2 3) 10 4 0 (opened_world (endpoint 2 3))))
                    ++ [Ev_on_send_complete (Some 14%positive) NULL sr]
      /\ count is_send_complete (trace w')
         = S (count is_send_complete (trace (opened_world (endpoint 2 3)))))
  /\ (exists r w',
      tlsio_openssl_send (endpoint 2 3) 10 ADDRESS_OF_tlsio_static_instance
        None 4 (Some 14%positive) NULL (opened_world (endpoint 2 3))
        = Returned r w'
      /\ r <> 0
      /\ trace w' = trace (opened_world (endpoint 2 3))).
Proof.
  split.
  - destruct (send_completion_called_once_past_the_preconditions (endpoint 2 3) 10
                ADDRESS_OF_tlsio_static_instance (Some []) 4 (Some 14%positive) NULL
                (opened_world (endpoint 2 3))) as [_ H]; [discriminate|].
    apply (H eq_refl 4 (world_of (write_loop (endpoint 2 3) 10 4 0 (opened_world (endpoint 2 3))))).
    vm_compute. reflexivity.
  - destruct (send_completion_called_once_past_the_preconditions (endpoint 2 3) 10
                ADDRESS_OF_tlsio_static_instance None 4 (Some 14%positive) NULL
                (opened_world (endpoint 2 3))) as [H _]; [discriminate|].
    apply H. reflexivity.
Defined.

(** ** A transport that never becomes ready *)

Lemma write_loop_spins (env : Environment) :
  always_wants_retry env ->
  forall (fuel : nat) (size total_written : Z) (w : World),
    0 < size ->
    exists w',
      write_loop env fuel size total_written w = OutOfFuel w'
      /\ count is_write (trace w') = (count is_write (trace w) + fuel)%nat.
Proof.
  intros [Hwrite Herr]. induction fuel as [|fuel IH]; intros size tw w Hsize;
    cbn [write_loop]; (replace (size >? 0) with true by (symmetry; apply Z.gtb_lt; lia)).
  - exists w. split; [reflexivity | lia].
  - run.
    set (res := env_SSL_write env (trace w) (ssl (tlsio_static_instance w)) tw (to_int size)).
    assert (Hres : (res >? 0) = false).
    { pose proof (Hwrite (trace w) (ssl (tlsio_static_instance w)) tw (to_int size)).
      subst res. destruct (Z.gtb_spec (env_SSL_write env (trace w)
        (ssl (tlsio_static_instance w)) tw (to_int size)) 0); [lia | reflexivity]. }
    rewrite Hres. cbn [tlsio_static_instance trace log].
    match goal with
    | |- context [env_SSL_get_error env ?t ?s ?r] =>
        destruct (Herr t s r) as [-> | ->]
    end; cbn [Z.eqb SSL_ERROR_WANT_READ SSL_ERROR_WANT_WRITE orb Pos.eqb];
      match goal with
      | |- context [write_loop env fuel ?s ?t ?w0] =>
          destruct (IH s t w0 Hsize) as [w' [Hrun Hcount]]
      end;
      exists w'; (split; [exact Hrun|]); rewrite Hcount;
      cbn [trace]; rewrite !count_app; cbn; lia.
Qed.

(** C9. The write loop of send() has no bound of its own.  On a transport
    whose every write attempt reports a retry status, a send() of at least
    one byte on an open connection has, for every number N of loop
    iterations it is allowed, made exactly N write attempts and still not
    ended: it has not returned and has not called the completion
    callback. *)
Theorem send_write_loop_is_unbounded
    (env : Environment) (tls_io : CONCRETE_IO_HANDLE)
    (data : list Byte.byte) (size : Z)
    (on_send_complete callback_context : pointer) (w : World) :
  always_wants_retry env ->
  tlsio_state (tlsio_static_instance w) = TLSIO_STATE_OPEN ->
  0 < size ->
  forall N : nat,
    exists w',
      tlsio_openssl_send env N tls_io (Some data) size on_send_complete callback_context w
        = OutOfFuel w'
      /\ count is_write (trace w') = (count is_write (trace w) + N)%nat
      /\ count is_send_complete (trace w') = count is_send_complete (trace w).
Proof.
  intros Henv Hstate Hsize N.
  destruct (write_loop_spins env Henv N size 0 w Hsize) as [w' [Hrun Hcount]].
  exists w'. unfold tlsio_openssl_send. run. rewrite Hstate. cbn [TLSIO_STATE_eqb negb].
  rewrite Hrun. split; [reflexivity|]. split; [exact Hcount|].
  pose proof (write_loop_calls_no_completion env N size 0 w) as Hc.
  rewrite Hrun in Hc. exact Hc.
Qed.

Lemma send_write_loop_is_unbounded_witness :
  exists w',
    tlsio_openssl_send blocked_endpoint 1000 ADDRESS_OF_tlsio_static_instance
      (Some []) 4 (Some 14%positive) NULL (opened_world blocked_endpoint)
      = OutOfFuel w'
    /\ count is_write (trace w')
       = (count is_write (trace (opened_world blocked_endpoint)) + 1000)%nat
    /\ count is_send_complete (trace w')
       = count is_send_complete (trace (opened_world blocked_endpoint)).
Proof.
  apply (send_write_loop_is_unbounded blocked_endpoint ADDRESS_OF_tlsio_static_instance
           [] 4 (Some 14%positive) NULL (opened_world blocked_endpoint)).
  - split; intros; cbn; [lia | left; reflexivity].
  - vm_compute. reflexivity.
  - lia.
Defined.

(** ** All-or-nothing completion of send *)

Lemma to_int_in_range (z : Z) : - 2 ^ 31 <= z <= INT_MAX -> to_int z = z.
Proof.
  unfold to_int, INT_MAX, int_bits. change (32 - 1) with 31.
  change (2 ^ 31) with 2147483648. change (2 ^ 32) with 4294967296.
  intros H. rewrite Z.mod_small; lia.
Qed.

Lemma to_int_above_INT_MAX (z : Z) :
  INT_MAX < z <= SIZE_MAX -> to_int z = z - 2 ^ 32.
Proof.
  unfold to_int, INT_MAX, SIZE_MAX, int_bits, size_t_bits. change (32 - 1) with 31.
  change (2 ^ 31) with 2147483648. change (2 ^ 32) with 4294967296.
  intros H.
  replace (z + 2147483648) with (z - 2147483648 + 1 * 4294967296) by lia.
  rewrite Z.mod_add by lia. rewrite Z.mod_small; lia.
Qed.

Lemma to_size_t_in_range (z : Z) : 0 <= z <= SIZE_MAX -> to_size_t z = z.
Proof.
  unfold to_size_t, SIZE_MAX, size_t_bits. change (2 ^ 32) with 4294967296.
  intros H. apply Z.mod_small. lia.
Qed.

(** The [num] argument of a write is positive only when the remaining size
    fits an [int], and then it is the remaining size. *)
Lemma positive_num_is_the_size (size : Z) :
  0 <= size <= SIZE_MAX -> 0 < to_int size ->
  to_int size = size /\ size <= INT_MAX.
Proof.
  intros Hsize Hnum.
  destruct (Z_le_gt_dec size INT_MAX) as [Hle | Hgt].
  - split; [|exact Hle]. apply to_int_in_range. lia.
  - rewrite to_int_above_INT_MAX in Hnum by lia.
    unfold SIZE_MAX, size_t_bits in Hsize.
    change (2 ^ 32) with 4294967296 in *. lia.
Qed.

Lemma bytes_written_nonneg (t : list event) : 0 <= bytes_written t.
Proof.
  induction t as [|e t IH]; cbn; [lia|].
  destruct e; try exact IH.
  match goal with |- context [if ?r >? 0 then _ else _] => destruct (Z.gtb_spec r 0) end; lia.
Qed.

(** The loop never takes bytes back: the accepted total only grows. *)
Lemma write_loop_bytes_written_grow (env : Environment)
    (fuel : nat) (size total_written : Z) (w : World) :
  bytes_written (trace w)
  <= bytes_written (trace (world_of (write_loop env fuel size total_written w))).
Proof.
  destruct (write_loop_frame env fuel size total_written w) as [_ [added [Ht _]]].
  rewrite Ht, bytes_written_app. pose proof (bytes_written_nonneg added). lia.
Qed.

(** As long as the [int] counter does not overflow, it holds the number of
    bytes the transport accepted, whatever the transport answers. *)
Lemma write_loop_counts_what_was_written (env : Environment) :
  forall (fuel : nat) (size total_written : Z) (w : World) (tw' : Z) (w' : World),
    0 <= total_written ->
    write_loop env fuel size total_written w = Returned tw' w' ->
    total_written + (bytes_written (trace w') - bytes_written (trace w)) <= INT_MAX ->
    tw' = total_written + (bytes_written (trace w') - bytes_written (trace w)).
Proof.
  induction fuel as [|fuel IH]; intros size tw w tw' w' Htw Hrun;
    cbn [write_loop] in Hrun; destruct (size >? 0).
  - discriminate Hrun.
  - injection Hrun as <- <-. lia.
  - revert Hrun. run.
    set (res := env_SSL_write env (trace w) (ssl (tlsio_static_instance w)) tw (to_int size)).
    destruct (Z.gtb_spec res 0) as [Hgot | Hnone]; cbn [tlsio_static_instance trace log].
    + intros Hrun Hfit.
      match type of Hrun with
      | write_loop env fuel ?s ?t ?w0 = _ =>
          pose proof (write_loop_bytes_written_grow env fuel s t w0) as Hgrow
      end.
      rewrite Hrun in Hgrow. cbn [world_of trace] in Hgrow.
      rewrite !bytes_written_app in Hgrow. cbn in Hgrow.
      destruct (Z.gtb_spec res 0) as [_ | Hno]; [|lia].
      assert (Hti : to_int (tw + res) = tw + res).
      { apply to_int_in_range. change (2 ^ 31) with 2147483648. lia. }
      rewrite Hti in Hrun.
      assert (Hpos : 0 <= tw + res) by lia.
      pose proof (IH _ _ _ _ _ Hpos Hrun) as Hrec.
      cbn [trace] in Hrec. rewrite !bytes_written_app in Hrec. cbn in Hrec.
      change INT_MAX with 2147483647 in *.
      destruct (Z.gtb_spec res 0); lia.
    + match goal with
      | |- context [if ?c then _ else _] => destruct c
      end; cbn [tlsio_static_instance trace log].
      * intros Hrun Hfit.
        pose proof (IH _ _ _ _ _ Htw Hrun) as Hrec.
        cbn [trace] in Hrec. rewrite !bytes_written_app in Hrec. cbn in Hrec.
        change INT_MAX with 2147483647 in *.
        destruct (Z.gtb_spec res 0); lia.
      * match goal with
        | |- context [if ?c then _ else _] => destruct c
        end; intros Hrun; injection Hrun as <- <-; cbn [trace];
          rewrite !bytes_written_app; cbn;
          destruct (Z.gtb_spec res 0); lia.
  - injection Hrun as <- <-. lia.
Qed.

Lemma write_loop_accounting (env : Environment) (bytes_to_send : Z) :
  SSL_write_bounded env ->
  0 <= bytes_to_send <= SIZE_MAX ->
  forall (fuel : nat) (size total_written : Z) (w : World) (tw' : Z) (w' : World),
    write_loop_invariant bytes_to_send size total_written ->
    write_loop env fuel size total_written w = Returned tw' w' ->
    0 <= tw' <= bytes_to_send
    /\ (tw' = 0 \/ bytes_to_send <= INT_MAX)
    /\ bytes_written (trace w') - bytes_written (trace w) = tw' - total_written.
Proof.
  intros Hbound Hbts.
  assert (Hmax : INT_MAX < SIZE_MAX) by (vm_compute; reflexivity).
  induction fuel as [|fuel IH]; intros size tw w tw' w' Hinv Hrun;
    cbn [write_loop] in Hrun; destruct (Z.gtb_spec size 0) as [Hpos | Hzero].
  - discriminate Hrun.
  - injection Hrun as <- <-. unfold write_loop_invariant in Hinv. lia.
  - revert Hrun. run.
    set (res := env_SSL_write env (trace w) (ssl (tlsio_static_instance w)) tw (to_int size)).
    pose proof (Hbound (trace w) (ssl (tlsio_static_instance w)) tw (to_int size)) as Hres.
    fold res in Hres.
    assert (Hsize : 0 <= size <= SIZE_MAX) by (unfold write_loop_invariant in Hinv; lia).
    destruct (Z.gtb_spec res 0) as [Hgot | Hnone]; cbn [tlsio_static_instance trace log].
    + intros Hrun.
      assert (Hnum : 0 < to_int size) by lia.
      destruct (positive_num_is_the_size size Hsize Hnum) as [Hsame Hfits].
      rewrite Hsame in *.
      assert (Hres' : res <= size) by lia.
      assert (Htw : 0 <= tw /\ tw + size = bytes_to_send /\ bytes_to_send <= INT_MAX)
        by (unfold write_loop_invariant in Hinv; lia).
      assert (Hti : to_int (tw + res) = tw + res).
      { apply to_int_in_range. change (2 ^ 31) with 2147483648. lia. }
      assert (Hts : to_size_t (size - res) = size - res).
      { apply to_size_t_in_range. lia. }
      rewrite Hti, Hts in Hrun.
      apply IH in Hrun.
      2:{ right. lia. }
      destruct Hrun as [Hrange [_ Hacc]]. split; [exact Hrange|]. split; [lia|].
      cbn [trace] in Hacc. rewrite !bytes_written_app in Hacc. cbn in Hacc.
      destruct (Z.gtb_spec res 0); lia.
    + match goal with
      | |- context [if ?c then _ else _] => destruct c
      end; cbn [tlsio_static_instance trace log].
      * intros Hrun. apply IH in Hrun; [|exact Hinv].
        destruct Hrun as [Hrange [Hfit Hacc]]. split; [exact Hrange|].
        split; [exact Hfit|].
        cbn [trace] in Hacc. rewrite !bytes_written_app in Hacc. cbn in Hacc.
        destruct (Z.gtb_spec res 0); lia.
      * match goal with
        | |- context [if ?c then _ else _] => destruct c
        end; intros Hrun; injection Hrun as <- <-; cbn [trace];
          rewrite !bytes_written_app; cbn;
          (destruct (Z.gtb_spec res 0); [lia|]);
          unfold write_loop_invariant in Hinv;
          change INT_MAX with 2147483647 in *; lia.
  - injection Hrun as <- <-. unfold write_loop_invariant in Hinv. lia.
Qed.

(** A transport that keeps the contract never makes the [int] counter
    overflow: what it accepts stays within the request and within
    [INT_MAX]. *)
Lemma bounded_writes_fit_an_int (env : Environment)
    (fuel : nat) (size : Z) (w : World) (tw : Z) (w1 : World) :
  SSL_write_bounded env ->
  0 <= size <= SIZE_MAX ->
  write_loop env fuel size 0 w = Returned tw w1 ->
  bytes_written (trace w1) - bytes_written (trace w) <= Z.min size INT_MAX.
Proof.
  intros Hbound Hsize Hloop.
  assert (Hinv : write_loop_invariant size size 0) by (left; split; reflexivity).
  destruct (write_loop_accounting env size Hbound Hsize fuel size 0 w tw w1 Hinv Hloop)
    as [Hrange [Hfit Hacc]].
  assert (Hmax : 0 <= INT_MAX) by (vm_compute; discriminate).
  lia.
Qed.

(** C2. A send() that passes its preconditions (state OPEN, non-null buffer)
    and whose write loop has ended returns 0 exactly when the bytes the
    transport accepted during the call add up to the requested size, and
    reports IO_SEND_OK to the completion callback exactly in that case; any
    other total, however the loop was left, gives a non-zero return and
    IO_SEND_ERROR.  The accepted total is assumed to fit the [int] that
    counts it (beyond that the C program overflows a signed integer); every
    transport that never reports more than it was asked to write keeps
    within it. *)
Theorem send_succeeds_iff_everything_was_written
    (env : Environment) (fuel : nat) (tls_io : CONCRETE_IO_HANDLE)
    (data : list Byte.byte) (size : Z)
    (on_send_complete callback_context : pointer)
    (w : World) (tw : Z) (w1 : World) :
  0 <= size <= SIZE_MAX ->
  tlsio_state (tlsio_static_instance w) = TLSIO_STATE_OPEN ->
  write_loop env fuel size 0 w = Returned tw w1 ->
  bytes_written (trace w1) - bytes_written (trace w) <= INT_MAX ->
  let written := bytes_written (trace w1) - bytes_written (trace w) in
  exists r w',
    tlsio_openssl_send env fuel tls_io (Some data) size on_send_complete callback_context w
      = Returned r w'
    /\ (r = 0 <-> written = size)
    /\ trace w' =
         trace w1 ++ match on_send_complete with
                     | Some _ =>
                         [Ev_on_send_complete on_send_complete callback_context
                            (if written =? size then IO_SEND_OK else IO_SEND_ERROR)]
                     | None => []
                     end.
Proof.
  intros Hsize Hstate Hloop Hfit written.
  pose proof (write_loop_counts_what_was_written env fuel size 0 w tw w1
                (Z.le_refl 0) Hloop Hfit) as Htw.
  pose proof (write_loop_bytes_written_grow env fuel size 0 w) as Hgrow.
  rewrite Hloop in Hgrow. cbn [world_of] in Hgrow.
  assert (Hw : written = tw) by (unfold written; lia).
  assert (Hmax : INT_MAX < SIZE_MAX) by (vm_compute; reflexivity).
  unfold tlsio_openssl_send. run. rewrite Hstate. cbn [TLSIO_STATE_eqb negb].
  rewrite Hloop. rewrite to_size_t_in_range by lia. rewrite Hw.
  destruct (Z.eqb_spec tw size) as [Heq | Hneq];
    destruct on_send_complete as [cb|]; cbn;
    eexists _, _; (split; [reflexivity|]); cbn;
    rewrite ?app_nil_r; split; try reflexivity; split; intros; try lia; congruence.
Qed.

Lemma send_succeeds_iff_everything_was_written_witness :
  exists r w',
    tlsio_openssl_send (failing_endpoint 3 5) 10 ADDRESS_OF_tlsio_static_instance
      (Some []) 4 (Some 14%positive) NULL (opened_world (endpoint 2 3))
      = Returned r w'
    /\ (r = 0 <-> 3 = 4)
    /\ trace w' =
         trace (world_of (write_loop (failing_endpoint 3 5) 10 4 0
                            (opened_world (endpoint 2 3))))
         ++ [Ev_on_send_complete (Some 14%positive) NULL IO_SEND_ERROR].
Proof.
  apply (send_succeeds_iff_everything_was_written (failing_endpoint 3 5) 10
           ADDRESS_OF_tlsio_static_instance [] 4 (Some 14%positive) NULL
           (opened_world (endpoint 2 3)) 3
           (world_of (write_loop (failing_endpoint 3 5) 10 4 0
                        (opened_world (endpoint 2 3))))).
  - vm_compute. split; discriminate.
  - vm_compute. reflexivity.
  - vm_compute. reflexivity.
  - vm_compute. discriminate.
Defined.

(** The loop does end on every transport that never reports a retry status:
    each iteration then either accepts at least one byte or leaves the
    loop. *)
Lemma write_loop_ends_without_retry_status (env : Environment) :
  SSL_write_bounded env ->
  (forall t s res,
      env_SSL_get_error env t s res <> SSL_ERROR_WANT_READ
      /\ env_SSL_get_error env t s res <> SSL_ERROR_WANT_WRITE) ->
  forall (fuel : nat) (size total_written : Z) (w : World),
    0 <= size <= SIZE_MAX ->
    (Z.to_nat size <= fuel)%nat ->
    exists tw' w', write_loop env fuel size total_written w = Returned tw' w'.
Proof.
  intros Hbound Herr. induction fuel as [|fuel IH]; intros size tw w Hsize Hfuel;
    cbn [write_loop]; destruct (Z.gtb_spec size 0) as [Hpos | Hzero];
    try (eexists _, _; reflexivity); [lia|].
  run.
  set (res := env_SSL_write env (trace w) (ssl (tlsio_static_instance w)) tw (to_int size)).
  pose proof (Hbound (trace w) (ssl (tlsio_static_instance w)) tw (to_int size)) as Hres.
  fold res in Hres.
  destruct (Z.gtb_spec res 0) as [Hgot | Hnone]; cbn [tlsio_static_instance trace log].
  - assert (Hnum : 0 < to_int size) by lia.
    destruct (positive_num_is_the_size size Hsize Hnum) as [Hsame Hfits].
    rewrite Hsame in Hres.
    rewrite (to_size_t_in_range (size - res)) by lia.
    apply IH; lia.
  - match goal with
    | |- context [env_SSL_get_error env ?t ?s ?r] =>
        destruct (Herr t s r) as [H1 H2];
        apply Z.eqb_neq in H1; apply Z.eqb_neq in H2; rewrite H1, H2
    end.
    cbn [orb].
    match goal with
    | |- context [if ?c then _ else _] => destruct c
    end; eexists _, _; reflexivity.
Qed.

(** ** The handshake loop *)

Lemma filter_retry_events (s : pointer) (rs : list Z) :
  filter is_handshake_event (retry_events s rs) = retry_events s rs.
Proof.
  induction rs as [|r rs IH]; [reflexivity|].
  cbn. unfold retry_events in IH. now rewrite IH.
Qed.

Lemma count_open_complete_retry_events (s : pointer) (rs : list Z) :
  count is_open_complete (retry_events s rs) = 0%nat.
Proof. induction rs as [|r rs IH]; [reflexivity | exact IH]. Qed.

(** The loop with enough fuel for its bound always ends.  It makes
    [length rs] refused attempts, each followed by a sleep of
    [RETRY_DELAY], then one last attempt; [retry] has grown by the number
    of refused attempts and never passes [MAX_RETRY]; below the bound the
    last attempt is the one that completed. *)
Lemma connect_loop_spec (env : Environment) (s : pointer) :
  forall (fuel : nat) (retry : Z) (w : World),
    0 <= retry <= MAX_RETRY ->
    (Z.to_nat (MAX_RETRY - retry) < fuel)%nat ->
    exists rs last,
      connect_loop env fuel s retry w =
        Returned (retry + Z.of_nat (List.length rs))
          (mkWorld (tlsio_static_instance w)
                   (trace w ++ retry_events s rs ++ [Ev_SSL_connect s last])
                   (log w))
      /\ retry + Z.of_nat (List.length rs) <= MAX_RETRY
      /\ Forall (fun r => r <> 0) rs
      /\ (retry + Z.of_nat (List.length rs) < MAX_RETRY -> last = 0).
Proof.
  induction fuel as [|fuel IH]; intros retry w Hretry Hfuel; [lia|].
  cbn [connect_loop]. run.
  set (r := env_SSL_connect env (trace w) s).
  destruct (Z.eqb_spec r 0) as [Hdone | Hrefused]; cbn [negb andb].
  - exists [], r. cbn. rewrite Z.add_0_r. repeat split; auto; lia.
  - destruct (Z.ltb_spec retry MAX_RETRY) as [Hbelow | Hbound].
    + match goal with
      | |- context [connect_loop env fuel s ?n ?w0] =>
          destruct (IH n w0) as [rs [last [Hrun [Hle [Hnz Hlast]]]]]; [lia | lia |]
      end.
      exists (r :: rs), last. rewrite Hrun. cbn [tlsio_static_instance trace log].
      cbn [List.length]. rewrite Nat2Z.inj_succ.
      replace (retry + Z.succ (Z.of_nat (List.length rs)))
        with (retry + 1 + Z.of_nat (List.length rs)) by lia.
      repeat split; auto.
      * f_equal. f_equal. rewrite <- !app_assoc. reflexivity.
    + exists [], r. cbn. rewrite Z.add_0_r. repeat split; auto; lia.
Qed.

(** [create_and_connect_ssl], seen through the attempts and sleeps it
    makes. *)
Lemma create_and_connect_ssl_spec (env : Environment) (fuel : nat) (w : World) :
  (Z.to_nat MAX_RETRY < fuel)%nat ->
  exists r w' added,
    create_and_connect_ssl env fuel w = Returned r w'
    /\ trace w' = trace w ++ added
    /\ count is_open_complete added = 0%nat
    /\ on_io_open_complete (tlsio_static_instance w')
       = on_io_open_complete (tlsio_static_instance w)
    /\ ((filter is_handshake_event added = [] /\ r <> 0)
        \/ exists s rs last,
            filter is_handshake_event added
            = retry_events s rs ++ [Ev_SSL_connect s last]
            /\ Forall (fun r => r <> 0) rs
            /\ (List.length rs <= Z.to_nat MAX_RETRY)%nat
            /\ ((List.length rs < Z.to_nat MAX_RETRY)%nat -> last = 0 /\ r = 0)
            /\ (List.length rs = Z.to_nat MAX_RETRY -> r <> 0)).
Proof.
  intros Hfuel. unfold create_and_connect_ssl. run.
  set (sk := env_SSL_Socket_Create env (trace w) (hostname (tlsio_static_instance w))
               (port (tlsio_static_instance w))).
  destruct (sk <? 0).
  { cbn -[destroy_openssl_connection_members].
    rewrite destroy_openssl_connection_members_spec.
    cbn [tlsio_static_instance trace log]. rewrite <- !app_assoc.
    eexists _, _, _. split; [reflexivity|]. cbn [trace]. split; [reflexivity|].
    destruct w as [[] t l]; cbn.
    repeat match goal with
           | |- context [if ?c then _ else _] => destruct c
           end; cbn; repeat split; auto; left; split; auto; discriminate. }
  cbn [tlsio_static_instance trace log].
  match goal with
  | |- context [env_SSL_CTX_new env ?t] => set (ctx := env_SSL_CTX_new env t)
  end.
  destruct ctx as [c|].
  2:{ cbn -[destroy_openssl_connection_members].
      rewrite destroy_openssl_connection_members_spec.
      cbn [tlsio_static_instance trace log]. rewrite <- !app_assoc.
      eexists _, _, _. split; [reflexivity|]. cbn [trace]. split; [reflexivity|].
      destruct w as [[] t l]; cbn.
      repeat match goal with
             | |- context [if ?c then _ else _] => destruct c
             end; cbn; repeat split; auto; left; split; auto; discriminate. }
  cbn [is_null tlsio_static_instance trace log].
  match goal with
  | |- context [env_SSL_new env ?t ?c] => set (ss := env_SSL_new env t c)
  end.
  destruct ss as [s|].
  2:{ cbn -[destroy_openssl_connection_members].
      rewrite destroy_openssl_connection_members_spec.
      cbn [tlsio_static_instance trace log]. rewrite <- !app_assoc.
      eexists _, _, _. split; [reflexivity|]. cbn [trace]. split; [reflexivity|].
      destruct w as [[] t l]; cbn.
      repeat match goal with
             | |- context [if ?c then _ else _] => destruct c
             end; cbn; repeat split; auto; left; split; auto; discriminate. }
  cbn [is_null tlsio_static_instance trace log].
  match goal with
  | |- context [env_SSL_set_fd env ?t ?a ?b] => set (fd := env_SSL_set_fd env t a b)
  end.
  destruct (fd =? 1).
  2:{ cbn -[destroy_openssl_connection_members].
      rewrite destroy_openssl_connection_members_spec.
      cbn [tlsio_static_instance trace log]. rewrite <- !app_assoc.
      eexists _, _, _. split; [reflexivity|]. cbn [trace]. split; [reflexivity|].
      destruct w as [[] t l]; cbn.
      repeat match goal with
             | |- context [if ?c then _ else _] => destruct c
             end; cbn; repeat split; auto; left; split; auto; discriminate. }
  cbn [negb].
  match goal with
  | |- context [connect_loop env fuel ?p 0 ?w0] =>
      destruct (connect_loop_spec env p fuel 0 w0)
        as [rs [last [Hrun [Hle [Hnz Hlast]]]]];
      [unfold MAX_RETRY; lia | rewrite Z.sub_0_r; exact Hfuel |]
  end.
  rewrite Hrun. clear Hrun. cbn [tlsio_static_instance trace log].
  rewrite Z.add_0_l in *.
  assert (Hlen : (List.length rs <= Z.to_nat MAX_RETRY)%nat) by lia.
  destruct (Z.geb_spec (Z.of_nat (List.length rs)) MAX_RETRY) as [Hall | Hsome].
  - cbn -[destroy_openssl_connection_members retry_events].
    rewrite destroy_openssl_connection_members_spec.
    cbn [tlsio_static_instance trace log]. rewrite <- !app_assoc.
    eexists _, _, _. split; [reflexivity|]. cbn [trace]. split; [reflexivity|].
    rewrite !count_app, !filter_app, count_open_complete_retry_events, filter_retry_events.
    destruct w as [[] t l]; cbn -[retry_events].
    repeat match goal with
           | |- context [if ?c then _ else _] => destruct c
           end; cbn -[retry_events]; rewrite ?app_nil_r;
      (split; [reflexivity|]); (split; [reflexivity|]);
      right; exists (Some s), rs, last;
      (split; [reflexivity|]); (split; [exact Hnz|]); (split; [exact Hlen|]);
      (split; [intros; unfold MAX_RETRY in *; lia | intros; discriminate]).
  - cbn -[retry_events]. rewrite <- !app_assoc.
    eexists _, _, _. split; [reflexivity|]. cbn [trace]. split; [reflexivity|].
    rewrite !count_app, !filter_app, count_open_complete_retry_events, filter_retry_events.
    cbn -[retry_events]. rewrite ?app_nil_r.
    split; [reflexivity|]. split; [reflexivity|].
    right. exists (Some s), rs, last.
    split; [reflexivity|]. split; [exact Hnz|]. split; [exact Hlen|].
    split; [intros; split; [apply Hlast; lia | reflexivity]
           | intros; unfold MAX_RETRY in *; lia].
Qed.

(** The loop once more, with its attempts tied to what the transport
    answers: [rs] are the transport's answers to the refused attempts, in
    order, and [last] is its answer to the attempt made after them. *)
Lemma connect_loop_answers (env : Environment) (s : pointer) :
  forall (fuel : nat) (retry : Z) (w : World),
    0 <= retry <= MAX_RETRY ->
    (Z.to_nat (MAX_RETRY - retry) < fuel)%nat ->
    exists rs last,
      connect_loop env fuel s retry w =
        Returned (retry + Z.of_nat (List.length rs))
          (mkWorld (tlsio_static_instance w)
                   (trace w ++ retry_events s rs ++ [Ev_SSL_connect s last])
                   (log w))
      /\ retry + Z.of_nat (List.length rs) <= MAX_RETRY
      /\ Forall (fun r => r <> 0) rs
      /\ (retry + Z.of_nat (List.length rs) < MAX_RETRY -> last = 0)
      /\ refused_answers env s (trace w) rs
      /\ last = env_SSL_connect env (trace w ++ retry_events s rs) s.
Proof.
  induction fuel as [|fuel IH]; intros retry w Hretry Hfuel; [lia|].
  cbn [connect_loop]. run.
  set (r := env_SSL_connect env (trace w) s).
  destruct (Z.eqb_spec r 0) as [Hdone | Hrefused]; cbn [negb andb].
  - exists [], r. cbn. rewrite Z.add_0_r, app_nil_r. repeat split; auto; lia.
  - destruct (Z.ltb_spec retry MAX_RETRY) as [Hbelow | Hbound].
    + match goal with
      | |- context [connect_loop env fuel s ?n ?w0] =>
          destruct (IH n w0) as [rs [last [Hrun [Hle [Hnz [Hlast [Hans Hl]]]]]]];
          [lia | lia |]
      end.
      exists (r :: rs), last. rewrite Hrun. cbn [tlsio_static_instance trace log] in *.
      cbn [List.length]. rewrite Nat2Z.inj_succ.
      replace (retry + Z.succ (Z.of_nat (List.length rs)))
        with (retry + 1 + Z.of_nat (List.length rs)) by lia.
      repeat split; auto.
      * f_equal. f_equal. rewrite <- !app_assoc. reflexivity.
      * rewrite Hl. f_equal. cbn [retry_events flat_map].
        rewrite <- !app_assoc. reflexivity.
    + exists [], r. cbn. rewrite Z.add_0_r, app_nil_r. repeat split; auto; lia.
Qed.

Lemma handshake_events_of_releases (i : TLS_IO_INSTANCE) :
  filter is_handshake_event
    ((if is_null (ssl i) then [] else [Ev_SSL_free (ssl i)])
     ++ (if is_null (ssl_context i) then [] else [Ev_SSL_CTX_free (ssl_context i)])
     ++ (if sock i <? 0 then [Ev_SSL_Socket_Close (sock i)] else [])) = []
  /\ count is_open_complete
       ((if is_null (ssl i) then [] else [Ev_SSL_free (ssl i)])
        ++ (if is_null (ssl_context i) then [] else [Ev_SSL_CTX_free (ssl_context i)])
        ++ (if sock i <? 0 then [Ev_SSL_Socket_Close (sock i)] else [])) = 0%nat.
Proof.
  destruct (is_null (ssl i)), (is_null (ssl_context i)), (sock i <? 0);
    split; reflexivity.
Qed.

(** [create_and_connect_ssl] by the answers of the collaborators.  When the
    four setup answers let it through, it makes the setup calls, then the
    refused attempts with their sleeps, then the last attempt, and after
    that neither attempts nor sleeps; otherwise it makes no attempt and no
    sleep and fails. *)
Lemma create_and_connect_ssl_handshake (env : Environment) (fuel : nat) (w : World) :
  (20 < fuel)%nat ->
  let u := setup_of env (trace w) (hostname (tlsio_static_instance w))
             (port (tlsio_static_instance w)) in
  exists r w' added,
    create_and_connect_ssl env fuel w = Returned r w'
    /\ trace w' = trace w ++ added
    /\ count is_open_complete added = 0%nat
    /\ on_io_open_complete (tlsio_static_instance w')
       = on_io_open_complete (tlsio_static_instance w)
    /\ if setup_succeeds u
       then exists rs last rest,
           added = su_events u ++ retry_events (su_ssl u) rs
                     ++ [Ev_SSL_connect (su_ssl u) last] ++ rest
           /\ filter is_handshake_event rest = []
           /\ refused_answers env (su_ssl u) (trace w ++ su_events u) rs
           /\ last = env_SSL_connect env
                       (trace w ++ su_events u ++ retry_events (su_ssl u) rs) (su_ssl u)
           /\ Forall (fun r => r <> 0) rs
           /\ (List.length rs <= 20)%nat
           /\ ((List.length rs < 20)%nat -> last = 0 /\ r = 0)
           /\ (List.length rs = 20%nat -> r <> 0)
       else filter is_handshake_event added = [] /\ r <> 0.
Proof.
  intros Hfuel. cbv zeta. unfold setup_succeeds, setup_of.
  cbn [su_sock su_ctx su_ssl su_fd su_events].
  unfold create_and_connect_ssl. run.
  set (sk := env_SSL_Socket_Create env (trace w) (hostname (tlsio_static_instance w))
               (port (tlsio_static_instance w))).
  destruct (sk <? 0) eqn:Hsk; cbn [negb andb].
  { cbn -[destroy_openssl_connection_members].
    rewrite destroy_openssl_connection_members_spec.
    cbn [tlsio_static_instance trace log]. rewrite <- !app_assoc.
    eexists _, _, _. split; [reflexivity|]. cbn [trace]. split; [reflexivity|].
    destruct w as [[] t l]; cbn.
    repeat match goal with
           | |- context [if ?c then _ else _] => destruct c
           end; cbn; repeat split; discriminate. }
  cbn [tlsio_static_instance trace log].
  set (ctx := env_SSL_CTX_new env
                (trace w ++ [Ev_SSL_Socket_Create (hostname (tlsio_static_instance w))
                               (port (tlsio_static_instance w)) sk])).
  destruct ctx as [c|] eqn:Hctx; cbn [is_null negb andb].
  2:{ cbn -[destroy_openssl_connection_members].
      rewrite destroy_openssl_connection_members_spec.
      cbn [tlsio_static_instance trace log]. rewrite <- !app_assoc.
      eexists _, _, _. split; [reflexivity|]. cbn [trace]. split; [reflexivity|].
      destruct w as [[] t l]; cbn.
      repeat match goal with
             | |- context [if ?c then _ else _] => destruct c
             end; cbn; repeat split; discriminate. }
  cbn [is_null tlsio_static_instance trace log].
  set (ss := env_SSL_new env
               ((trace w ++ [Ev_SSL_Socket_Create (hostname (tlsio_static_instance w))
                               (port (tlsio_static_instance w)) sk])
                ++ [Ev_SSL_CTX_new (Some c)]) (Some c)).
  destruct ss as [s|] eqn:Hss; cbn [is_null negb andb].
  2:{ cbn -[destroy_openssl_connection_members].
      rewrite destroy_openssl_connection_members_spec.
      cbn [tlsio_static_instance trace log]. rewrite <- !app_assoc.
      eexists _, _, _. split; [reflexivity|]. cbn [trace]. split; [reflexivity|].
      destruct w as [[] t l]; cbn.
      repeat match goal with
             | |- context [if ?c then _ else _] => destruct c
             end; cbn; repeat split; discriminate. }
  cbn [is_null tlsio_static_instance trace log].
  set (fd := env_SSL_set_fd env
               ((((trace w ++ [Ev_SSL_Socket_Create (hostname (tlsio_static_instance w))
                                 (port (tlsio_static_instance w)) sk])
                  ++ [Ev_SSL_CTX_new (Some c)]) ++ [Ev_SSL_new (Some c) (Some s)])
                ++ [Ev_SSL_CTX_set_default_read_buffer_len (Some c)
                      OPENSSL_DEFAULT_READ_BUFFER_SIZE]) (Some s) sk).
  destruct (fd =? 1) eqn:Hfd; cbn [negb].
  2:{ cbn -[destroy_openssl_connection_members].
      rewrite destroy_openssl_connection_members_spec.
      cbn [tlsio_static_instance trace log]. rewrite <- !app_assoc.
      eexists _, _, _. split; [reflexivity|]. cbn [trace]. split; [reflexivity|].
      destruct w as [[] t l]; cbn.
      repeat match goal with
             | |- context [if ?c then _ else _] => destruct c
             end; cbn; repeat split; discriminate. }
  match goal with
  | |- context [connect_loop env fuel ?p 0 ?w0] =>
      destruct (connect_loop_answers env p fuel 0 w0)
        as [rs [last [Hrun [Hle [Hnz [Hlast [Hans Hl]]]]]]];
      [unfold MAX_RETRY; lia | rewrite Z.sub_0_r; exact Hfuel |]
  end.
  rewrite Hrun. clear Hrun. cbn [tlsio_static_instance trace log] in *.
  rewrite Z.add_0_l in *.
  assert (Hlen : (List.length rs <= 20)%nat) by (unfold MAX_RETRY in Hle; lia).
  repeat (rewrite <- app_assoc in Hans; cbn [app] in Hans).
  repeat (rewrite <- app_assoc in Hl; cbn [app] in Hl).
  destruct (Z.geb_spec (Z.of_nat (List.length rs)) MAX_RETRY) as [Hall | Hsome].
  - cbn -[destroy_openssl_connection_members retry_events].
    rewrite destroy_openssl_connection_members_spec.
    cbn [tlsio_static_instance trace log]. rewrite <- !app_assoc.
    eexists _, _, _. split; [reflexivity|]. cbn [trace]. split; [reflexivity|].
    destruct (handshake_events_of_releases
                (set_sock sk (tlsio_static_instance w))) as [Hf Hc].
    split.
    { rewrite !count_app, count_open_complete_retry_events.
      destruct (is_null (ssl (set_sock sk (tlsio_static_instance w)))),
               (is_null (ssl_context (set_sock sk (tlsio_static_instance w)))),
               (sock (set_sock sk (tlsio_static_instance w)) <? 0); reflexivity. }
    split; [destruct w as [[] t l]; reflexivity|].
    eexists rs, last, _. split; [cbn [app]; reflexivity|].
    split; [exact Hf|]. split; [exact Hans|]. split; [exact Hl|].
    split; [exact Hnz|]. split; [exact Hlen|].
    split; [intros; unfold MAX_RETRY in *; lia | intros; discriminate].
  - cbn -[retry_events]. rewrite <- !app_assoc.
    eexists _, _, _. split; [reflexivity|]. cbn [trace]. split; [reflexivity|].
    split.
    { rewrite !count_app, count_open_complete_retry_events. reflexivity. }
    split; [reflexivity|].
    exists rs, last, []. split; [cbn [app]; reflexivity|].
    split; [reflexivity|]. split; [exact Hans|]. split; [exact Hl|].
    split; [exact Hnz|]. split; [exact Hlen|].
    split; [intros; split; [apply Hlast; lia | reflexivity]
           | intros; unfold MAX_RETRY in *; lia].
Qed.

(** C3. An open() call made in state NOT_OPEN (with the required
    on_bytes_received) always returns.  When the collaborators let it reach
    the handshake (a socket that is not negative, a context, a session, and
    the session bound to the socket with result 1), the call makes the four
    setup calls and then connect attempts on that session: [rs] are the
    transport's answers to the refused attempts, each of them non-zero and
    each followed by a sleep of 1000, and [last] is its answer to the one
    attempt made after them; nothing else is attempted or slept.  There are
    at most 20 refused attempts.  With fewer than 20 the last attempt
    completed and open() succeeds with state OPEN; with 20 the call fails
    with state ERROR and on_open_complete is not called, whatever the last
    attempt answered.  When the collaborators do not let it reach the
    handshake, the call makes no attempt and no sleep and fails with state
    ERROR. *)
Theorem handshake_retry_is_bounded
    (env : Environment) (fuel : nat) (tls_io : CONCRETE_IO_HANDLE)
    (on_io_open_complete on_io_open_complete_context : pointer)
    (on_bytes_received on_bytes_received_context : pointer)
    (on_io_error on_io_error_context : pointer) (w : World) :
  (20 < fuel)%nat ->
  on_bytes_received <> NULL ->
  tlsio_state (tlsio_static_instance w) = TLSIO_STATE_NOT_OPEN ->
  let u := setup_of env (trace w) (hostname (tlsio_static_instance w))
             (port (tlsio_static_instance w)) in
  exists r w' added,
    tlsio_openssl_open env fuel tls_io
      on_io_open_complete on_io_open_complete_context
      on_bytes_received on_bytes_received_context
      on_io_error on_io_error_context w = Returned r w'
    /\ trace w' = trace w ++ added
    /\ if setup_succeeds u
       then exists rs last rest,
           added = su_events u
                     ++ flat_map (fun r => [Ev_SSL_connect (su_ssl u) r;
                                            Ev_ThreadAPI_Sleep 1000]) rs
                     ++ [Ev_SSL_connect (su_ssl u) last] ++ rest
           /\ filter is_handshake_event rest = []
           /\ refused_answers env (su_ssl u) (trace w ++ su_events u) rs
           /\ last = env_SSL_connect env
                       (trace w ++ su_events u
                          ++ flat_map (fun r => [Ev_SSL_connect (su_ssl u) r;
                                                 Ev_ThreadAPI_Sleep 1000]) rs)
                       (su_ssl u)
           /\ Forall (fun r => r <> 0) rs
           /\ (List.length rs <= 20)%nat
           /\ ((List.length rs < 20)%nat ->
               last = 0 /\ r = 0
               /\ tlsio_state (tlsio_static_instance w') = TLSIO_STATE_OPEN)
           /\ (List.length rs = 20%nat ->
               r <> 0
               /\ tlsio_state (tlsio_static_instance w') = TLSIO_STATE_ERROR
               /\ count is_open_complete added = 0%nat)
       else filter is_handshake_event added = []
            /\ r <> 0
            /\ tlsio_state (tlsio_static_instance w') = TLSIO_STATE_ERROR.
Proof.
  intros Hfuel Hrecv Hstate. apply is_null_false in Hrecv. cbv zeta.
  fold (retry_events).
  unfold tlsio_openssl_open, invoke_on_io_error, send_handshake_bytes.
  rewrite Hrecv. run. rewrite Hstate. cbn [TLSIO_STATE_eqb negb].
  match goal with
  | |- context [create_and_connect_ssl env fuel ?w0] =>
      destruct (create_and_connect_ssl_handshake env fuel w0 Hfuel)
        as [r [w1 [added [Hrun [Htrace [Hnone [Hcb Hshape]]]]]]]
  end.
  rewrite Hrun. clear Hrun. cbn [tlsio_static_instance trace log] in *.
  cbn [hostname port set_tlsio_state set_on_io_error set_on_bytes_received
         set_on_io_open_complete] in Hshape.
  destruct (Z.eqb_spec r 0) as [Hok | Hfail]; cbn [negb].
  - (* the handshake succeeded *)
    match goal with
    | |- context [is_null ?p] => destruct (is_null p) eqn:Hoc
    end.
    all: cbn [negb tlsio_static_instance trace log].
    all: eexists _, _, _; (split; [reflexivity|]); cbn [trace tlsio_static_instance];
      rewrite Htrace, <- ?app_assoc; (split; [reflexivity|]).
    all: destruct (setup_succeeds _);
      [| destruct Hshape as [_ Hr]; contradiction].
    all: destruct Hshape as [rs [last [rest [Ha [Hf [Hans [Hl [Hnz [Hlen [Hlt Heq]]]]]]]]]].
    all: eexists rs, last, _; rewrite Ha, <- ?app_assoc; cbn [app];
      (split; [reflexivity|]).
    all: rewrite ?filter_app, ?Hf; cbn [filter is_handshake_event app].
    all: repeat split; auto; try (apply Hlt; assumption).
    all: exfalso;
      match goal with
      | Hl' : List.length _ = 20%nat, Hq : _ = 20%nat -> _ <> 0 |- _ =>
          apply Hq in Hl'; contradiction
      end.
  - (* the handshake failed *)
    cbn [negb FAILURE Z.eqb tlsio_static_instance trace log].
    match goal with
    | |- context [is_null ?p] => destruct (is_null p) eqn:Hoe
    end.
    all: cbn [negb tlsio_static_instance trace log set_on_io_error set_tlsio_state].
    all: eexists _, _, _; (split; [reflexivity|]); cbn [trace tlsio_static_instance];
      rewrite Htrace, <- ?app_assoc; (split; [reflexivity|]).
    all: destruct (setup_succeeds _);
      [| destruct Hshape as [Hf _]; rewrite ?filter_app, Hf; cbn;
         repeat split; apply FAILURE_nonzero].
    all: destruct Hshape as [rs [last [rest [Ha [Hf [Hans [Hl [Hnz [Hlen [Hlt Heq]]]]]]]]]].
    all: eexists rs, last, _; rewrite Ha, <- ?app_assoc; cbn [app];
      (split; [reflexivity|]).
    all: rewrite ?filter_app, ?count_app, ?Hf; cbn [filter is_handshake_event app].
    all: repeat split; auto; try apply FAILURE_nonzero.
    all: try (exfalso;
      match goal with
      | Hl' : (List.length _ < 20)%nat, Hq : (_ < 20)%nat -> _ /\ _ |- _ =>
          apply Hq in Hl'; destruct Hl'; contradiction
      end).
    all: rewrite Ha, !count_app in Hnone; rewrite ?count_app;
      unfold count in *;
      cbn [filter is_open_complete List.length] in Hnone |- *;
      rewrite ?filter_app, ?length_app;
      cbn [filter is_open_complete List.length]; lia.
Qed.

Lemma handshake_retry_is_bounded_witness :
  let w := created_world (endpoint 25 3) in
  let u := setup_of (endpoint 25 3) (trace w) (hostname (tlsio_static_instance w))
             (port (tlsio_static_instance w)) in
  exists r w' added,
    tlsio_openssl_open (endpoint 25 3) 30 ADDRESS_OF_tlsio_static_instance
      (Some 11%positive) NULL (Some 12%positive) NULL (Some 13%positive) NULL
      w = Returned r w'
    /\ trace w' = trace w ++ added
    /\ if setup_succeeds u
       then exists rs last rest,
           added = su_events u
                     ++ flat_map (fun r => [Ev_SSL_connect (su_ssl u) r;
                                            Ev_ThreadAPI_Sleep 1000]) rs
                     ++ [Ev_SSL_connect (su_ssl u) last] ++ rest
           /\ filter is_handshake_event rest = []
           /\ refused_answers (endpoint 25 3) (su_ssl u) (trace w ++ su_events u) rs
           /\ last = env_SSL_connect (endpoint 25 3)
                       (trace w ++ su_events u
                          ++ flat_map (fun r => [Ev_SSL_connect (su_ssl u) r;
                                                 Ev_ThreadAPI_Sleep 1000]) rs)
                       (su_ssl u)
           /\ Forall (fun r => r <> 0) rs
           /\ (List.length rs <= 20)%nat
           /\ ((List.length rs < 20)%nat ->
               last = 0 /\ r = 0
               /\ tlsio_state (tlsio_static_instance w') = TLSIO_STATE_OPEN)
           /\ (List.length rs = 20%nat ->
               r <> 0
               /\ tlsio_state (tlsio_static_instance w') = TLSIO_STATE_ERROR
               /\ count is_open_complete added = 0%nat)
       else filter is_handshake_event added = []
            /\ r <> 0
            /\ tlsio_state (tlsio_static_instance w') = TLSIO_STATE_ERROR.
Proof.
  intros w.
  apply (handshake_retry_is_bounded (endpoint 25 3) 30 ADDRESS_OF_tlsio_static_instance
           (Some 11%positive) NULL (Some 12%positive) NULL (Some 13%positive) NULL w).
  - lia.
  - discriminate.
  - vm_compute. reflexivity.
Defined.

(** ** open without on_bytes_received *)

(** open() called with a NULL on_bytes_received is refused before anything
    is looked at: it returns failure in every state, and neither the
    instance (so not the state either) nor the trace changes; on_error is
    not called. *)
Theorem open_without_on_bytes_received_is_refused
    (env : Environment) (fuel : nat) (tls_io : CONCRETE_IO_HANDLE)
    (oc occ brc oe oec : pointer) (w : World) :
  exists r w',
    tlsio_openssl_open env fuel tls_io oc occ NULL brc oe oec w = Returned r w'
    /\ r <> 0
    /\ tlsio_static_instance w' = tlsio_static_instance w
    /\ trace w' = trace w.
Proof.
  unfold tlsio_openssl_open. cbn [is_null NULL]. run.
  eexists _, _. split; [reflexivity|]. cbn. repeat split. apply FAILURE_nonzero.
Qed.

(** ** destroy *)

Lemma tlsio_openssl_destroy_spec (tls_io : CONCRETE_IO_HANDLE) (w : World) :
  let i := tlsio_static_instance w in
  tlsio_openssl_destroy tls_io w =
    Returned tt
      (mkWorld
         (set_x509privatekey None
            (set_x509certificate None (set_hostname None (set_certificate None i))))
         (trace w
            ++ map Ev_free
                 (filter is_Some
                    [certificate i; hostname i; x509certificate i; x509privatekey i]))
         (log w)).
Proof.
  destruct w as [i t l]. cbn. unfold tlsio_openssl_destroy. run.
  destruct i as [a1 a2 a3 a4 a5 a6 a7 a8 s c st h p ce x1 x2 so]. cbn.
  destruct ce, h, x1, x2; cbn; rewrite <- ?app_assoc; cbn; rewrite ?app_nil_r;
    reflexivity.
Qed.

(** destroy() frees each of the four owned strings that is present, once,
    in the order certificate, host name, x509 certificate, x509 key, and
    clears them.  It touches nothing else: the state, the session, the
    context and the socket stay as they were, and no TLS or socket call is
    made.  A second destroy() finds nothing to free and does nothing. *)
Theorem destroy_frees_each_string_once
    (h1 h2 : CONCRETE_IO_HANDLE) (w : World) :
  let i := tlsio_static_instance w in
  exists w',
    tlsio_openssl_destroy h1 w = Returned tt w'
    /\ trace w' = trace w
                  ++ map Ev_free
                       (filter is_Some
                          [certificate i; hostname i; x509certificate i; x509privatekey i])
    /\ without_strings (tlsio_static_instance w') = without_strings i
    /\ certificate (tlsio_static_instance w') = None
    /\ hostname (tlsio_static_instance w') = None
    /\ x509certificate (tlsio_static_instance w') = None
    /\ x509privatekey (tlsio_static_instance w') = None
    /\ tlsio_openssl_destroy h2 w' = Returned tt w'.
Proof.
  cbv zeta. rewrite tlsio_openssl_destroy_spec. eexists. split; [reflexivity|].
  cbn [trace tlsio_static_instance]. split; [reflexivity|].
  split; [reflexivity|]. repeat (split; [reflexivity|]).
  rewrite tlsio_openssl_destroy_spec. cbn. now rewrite app_nil_r.
Qed.

(** ** create that fails *)

(** create() with a NULL configuration changes nothing.  create() whose
    host name copy fails returns NULL but has already cleared the static
    instance: apart from the host name field the copy was aimed at, the
    instance is all zeroes (state NOT_OPEN, no session, socket 0), and the
    only call made is the copy, so whatever the instance held before has
    been dropped without being released. *)
Theorem failed_create_effects
    (env : Environment) (io_create_parameters : option TLSIO_CONFIG) (w : World) :
  exists h w',
    tlsio_openssl_create env io_create_parameters w = Returned h w'
    /\ match io_create_parameters with
       | None =>
           tlsio_static_instance w' = tlsio_static_instance w
           /\ trace w' = trace w
       | Some cfg =>
           let copy := env_mallocAndStrcpy_s env (trace w) (config_hostname cfg) in
           trace w' = trace w ++ [Ev_mallocAndStrcpy_s (config_hostname cfg) (fst copy)]
           /\ if fst copy =? 0 then h = ADDRESS_OF_tlsio_static_instance
              else h = NULL_HANDLE
                   /\ set_hostname None (tlsio_static_instance w') = zeroed_instance
       end.
Proof.
  unfold tlsio_openssl_create. destruct io_create_parameters as [cfg|]; run.
  - cbn. destruct (fst (env_mallocAndStrcpy_s env (trace w) (config_hostname cfg)) =? 0);
      cbn; eexists _, _; (split; [reflexivity|]); cbn; auto.
  - eexists _, _. split; [reflexivity|]. cbn. auto.
Qed.

(** ** dowork in OPEN *)

(** dowork() in state OPEN makes exactly one [SSL_read], asking for at most
    64 bytes.  A positive result is handed to the stored on_bytes_received
    callback with that count; a zero or negative result is dropped without
    any callback.  In both cases the instance is unchanged (no ERROR state)
    and nothing is logged. *)
Theorem dowork_in_OPEN_reads_once (env : Environment)
    (tls_io : CONCRETE_IO_HANDLE) (w : World) :
  tlsio_state (tlsio_static_instance w) = TLSIO_STATE_OPEN ->
  let i := tlsio_static_instance w in
  let r := env_SSL_read env (trace w) (ssl i) 64 in
  tlsio_openssl_dowork env tls_io w =
    Returned tt
      (mkWorld i
         (trace w ++ Ev_SSL_read (ssl i) 64 (fst r)
            :: (if fst r >? 0
                then [Ev_on_bytes_received (on_bytes_received i)
                        (on_bytes_received_context i) (snd r) (fst r)]
                else []))
         (log w)).
Proof.
  intros Hstate. cbv zeta. unfold tlsio_openssl_dowork, decode_ssl_received_bytes.
  run. rewrite Hstate. cbn [TLSIO_STATE_eqb].
  destruct (fst (env_SSL_read env (trace w) (ssl (tlsio_static_instance w)) 64) >? 0);
    cbn; rewrite <- ?app_assoc; reflexivity.
Qed.

Lemma dowork_in_OPEN_reads_once_witness :
  let w := opened_world (endpoint 2 3) in
  let i := tlsio_static_instance w in
  let r := env_SSL_read (endpoint 2 3) (trace w) (ssl i) 64 in
  tlsio_openssl_dowork (endpoint 2 3) ADDRESS_OF_tlsio_static_instance w =
    Returned tt
      (mkWorld i
         (trace w ++ Ev_SSL_read (ssl i) 64 (fst r)
            :: (if fst r >? 0
                then [Ev_on_bytes_received (on_bytes_received i)
                        (on_bytes_received_context i) (snd r) (fst r)]
                else []))
         (log w)).
Proof.
  intros w.
  apply (dowork_in_OPEN_reads_once (endpoint 2 3) ADDRESS_OF_tlsio_static_instance w).
  vm_compute. reflexivity.
Defined.

(** ** What send leaves alone *)

Lemma forallb_loop_events_call_functions (added : list event) :
  forallb is_write_loop_event added = true ->
  forallb calls_a_function added = true /\ count is_io_error added = 0%nat.
Proof.
  induction added as [|e added IH]; [split; reflexivity|].
  cbn [forallb]. intros H. apply andb_prop in H. destruct H as [He Ha].
  destruct (IH Ha) as [H1 H2]. unfold count in *.
  destruct e; try discriminate He; cbn; auto.
Qed.

(** Wherever a run of send() stands (returned or still in its loop), the
    instance is the one it started from, and what it has added to the trace
    holds no call through NULL and no call of on_error. *)
Lemma send_frame (env : Environment) (fuel : nat) (tls_io : CONCRETE_IO_HANDLE)
    (buffer : c_buffer) (size : Z) (cb ctx : pointer) (w : World) :
  let w' := world_of (tlsio_openssl_send env fuel tls_io buffer size cb ctx w) in
  tlsio_static_instance w' = tlsio_static_instance w
  /\ exists added, trace w' = trace w ++ added
                   /\ forallb calls_a_function added = true
                   /\ count is_io_error added = 0%nat.
Proof.
  cbv zeta. unfold tlsio_openssl_send.
  destruct buffer as [data|]; run.
  2:{ cbn. split; [reflexivity|]. exists []. rewrite app_nil_r. repeat split. }
  destruct (TLSIO_STATE_eqb (tlsio_state (tlsio_static_instance w)) TLSIO_STATE_OPEN);
    cbn [negb].
  2:{ cbn. split; [reflexivity|]. exists []. rewrite app_nil_r. repeat split. }
  destruct (write_loop_frame env fuel size 0 w) as [Hi [added [Ht Ha]]].
  destruct (forallb_loop_events_call_functions added Ha) as [Hf He].
  destruct (write_loop env fuel size 0 w) as [tw w1 | w1]; cbn [world_of] in *.
  - destruct cb as [c|]; cbn; (split; [exact Hi|]); rewrite Ht.
    + eexists. rewrite <- app_assoc. split; [reflexivity|].
      rewrite forallb_app, count_app, Hf, He. split; reflexivity.
    + exists added. repeat split; assumption.
  - split; [exact Hi|]. exists added. repeat split; assumption.
Qed.

(** send() never assigns to the instance and never calls on_error: after
    any send(), rejected, short, complete or still looping, the state and
    every other field are what they were.  A transport error during a send
    is reported through the return value and the completion callback
    only. *)
Theorem send_leaves_the_instance_alone (env : Environment) (fuel : nat)
    (tls_io : CONCRETE_IO_HANDLE) (buffer : c_buffer) (size : Z)
    (cb ctx : pointer) (w : World) :
  let w' := world_of (tlsio_openssl_send env fuel tls_io buffer size cb ctx w) in
  tlsio_static_instance w' = tlsio_static_instance w
  /\ count is_io_error (trace w') = count is_io_error (trace w).
Proof.
  destruct (send_frame env fuel tls_io buffer size cb ctx w) as [Hi [added [Ht [_ He]]]].
  cbv zeta. split; [exact Hi|]. rewrite Ht, count_app, He. lia.
Qed.

(** ** send of nothing *)

(** A send() of size 0 on an open connection succeeds at once: it makes no
    write, needs no loop iteration, returns 0 and reports IO_SEND_OK. *)
Theorem send_of_nothing_succeeds (env : Environment) (fuel : nat)
    (tls_io : CONCRETE_IO_HANDLE) (data : list Byte.byte)
    (cb ctx : pointer) (w : World) :
  tlsio_state (tlsio_static_instance w) = TLSIO_STATE_OPEN ->
  tlsio_openssl_send env fuel tls_io (Some data) 0 cb ctx w =
    Returned 0
      (mkWorld (tlsio_static_instance w)
         (match cb with
          | Some _ => trace w ++ [Ev_on_send_complete cb ctx IO_SEND_OK]
          | None => trace w
          end)
         (log w)).
Proof.
  intros Hstate. unfold tlsio_openssl_send. run. rewrite Hstate.
  cbn [TLSIO_STATE_eqb negb].
  replace (write_loop env fuel 0 0 w) with (Returned 0 w)
    by (destruct fuel; reflexivity).
  destruct cb as [c|]; cbn; destruct w; reflexivity.
Qed.

Lemma send_of_nothing_succeeds_witness :
  tlsio_openssl_send blocked_endpoint 0 ADDRESS_OF_tlsio_static_instance
    (Some []) 0 (Some 14%positive) NULL (opened_world blocked_endpoint) =
    Returned 0
      (mkWorld (tlsio_static_instance (opened_world blocked_endpoint))
         (trace (opened_world blocked_endpoint)
            ++ [Ev_on_send_complete (Some 14%positive) NULL IO_SEND_OK])
         (log (opened_world blocked_endpoint))).
Proof.
  apply (send_of_nothing_succeeds blocked_endpoint 0 ADDRESS_OF_tlsio_static_instance
           [] (Some 14%positive) NULL (opened_world blocked_endpoint)).
  vm_compute. reflexivity.
Defined.

(** ** Which bytes send offers *)

Lemma writes_the_unsent_suffix_app (bytes_to_send : Z) (a b : list event) :
  forall sent,
    writes_the_unsent_suffix bytes_to_send sent a ->
    writes_the_unsent_suffix bytes_to_send (sent + bytes_written a) b ->
    writes_the_unsent_suffix bytes_to_send sent (a ++ b).
Proof.
  induction a as [|e a IH]; intros sent Ha Hb; cbn in *.
  - now rewrite Z.add_0_r in Hb.
  - destruct e; try (apply IH; assumption).
    destruct Ha as [H1 [H2 H3]]. repeat split; try assumption.
    apply IH; [exact H3|]. now rewrite <- Z.add_assoc.
Qed.

Lemma write_loop_offers_the_unsent_suffix (env : Environment) (bytes_to_send : Z) :
  SSL_write_bounded env ->
  0 <= bytes_to_send <= INT_MAX ->
  forall (fuel : nat) (size total_written : Z) (w : World),
    0 <= total_written -> 0 <= size -> total_written + size = bytes_to_send ->
    exists added,
      trace (world_of (write_loop env fuel size total_written w)) = trace w ++ added
      /\ writes_the_unsent_suffix bytes_to_send total_written added.
Proof.
  intros Hbound Hbts.
  assert (Hmax : INT_MAX <= SIZE_MAX) by (vm_compute; discriminate).
  induction fuel as [|fuel IH]; intros size tw w Htw Hsize Hsum;
    cbn [write_loop]; destruct (Z.gtb_spec size 0) as [Hpos | Hzero];
    try (exists []; cbn; now rewrite app_nil_r).
  run.
  set (res := env_SSL_write env (trace w) (ssl (tlsio_static_instance w)) tw (to_int size)).
  pose proof (Hbound (trace w) (ssl (tlsio_static_instance w)) tw (to_int size)) as Hres.
  fold res in Hres.
  assert (Hnum : to_int size = size) by (apply to_int_in_range; change (2 ^ 31) with 2147483648; lia).
  rewrite Hnum in *.
  destruct (Z.gtb_spec res 0) as [Hgot | Hnone]; cbn [tlsio_static_instance trace log].
  - assert (Hti : to_int (tw + res) = tw + res).
    { apply to_int_in_range. change (2 ^ 31) with 2147483648. lia. }
    assert (Hts : to_size_t (size - res) = size - res).
    { apply to_size_t_in_range. lia. }
    rewrite Hti, Hts.
    match goal with
    | |- context [write_loop env fuel ?s ?t ?w0] =>
        destruct (IH s t w0) as [added [Ht Ha]]; [lia | lia | lia |]
    end.
    rewrite Ht. cbn [trace]. rewrite <- !app_assoc. eexists. split; [reflexivity|].
    cbn. repeat split; try lia.
    destruct (Z.gtb_spec res 0); [exact Ha | lia].
  - match goal with
    | |- context [if ?c then _ else _] => destruct c
    end; cbn [tlsio_static_instance trace log].
    + match goal with
      | |- context [write_loop env fuel ?s ?t ?w0] =>
          destruct (IH s t w0) as [added [Ht Ha]]; [lia | lia | lia |]
      end.
      rewrite Ht. cbn [trace]. rewrite <- !app_assoc. eexists. split; [reflexivity|].
      cbn. repeat split; try lia.
      destruct (Z.gtb_spec res 0); [lia|]. now rewrite Z.add_0_r.
    + match goal with
      | |- context [if ?c then _ else _] => destruct c
      end; cbn; rewrite <- !app_assoc; eexists; (split; [reflexivity|]);
        cbn; repeat split; lia.
Qed.

(** On a transport that never reports more than it was asked to write, a
    send() of a request that fits an [int] offers the bytes in order and
    without gaps: each [SSL_write] is passed the buffer at the offset where
    the bytes accepted so far end, with all the remaining bytes as its
    length; after a refusal the same suffix is offered again.  This holds
    for the writes made so far when the loop has not ended as well. *)
Theorem send_offers_the_unsent_suffix (env : Environment) (fuel : nat)
    (tls_io : CONCRETE_IO_HANDLE) (data : list Byte.byte) (size : Z)
    (cb ctx : pointer) (w : World) :
  SSL_write_bounded env ->
  0 <= size <= INT_MAX ->
  tlsio_state (tlsio_static_instance w) = TLSIO_STATE_OPEN ->
  exists added,
    trace (world_of (tlsio_openssl_send env fuel tls_io (Some data) size cb ctx w))
    = trace w ++ added
    /\ writes_the_unsent_suffix size 0 added.
Proof.
  intros Hbound Hsize Hstate.
  destruct (write_loop_offers_the_unsent_suffix env size Hbound Hsize fuel size 0 w)
    as [added [Ht Ha]]; try lia.
  unfold tlsio_openssl_send. run. rewrite Hstate. cbn [TLSIO_STATE_eqb negb].
  destruct (write_loop env fuel size 0 w) as [tw w1 | w1]; cbn [world_of] in *.
  - destruct cb as [c|]; cbn; rewrite Ht.
    + exists (added ++ [Ev_on_send_complete (Some c) ctx
                          (if to_size_t tw =? size then IO_SEND_OK else IO_SEND_ERROR)]).
      rewrite <- app_assoc. split; [reflexivity|].
      apply writes_the_unsent_suffix_app; [exact Ha | exact I].
    + exists added. split; [reflexivity | exact Ha].
  - exists added. split; assumption.
Qed.

Lemma send_offers_the_unsent_suffix_witness :
  exists added,
    trace (world_of (tlsio_openssl_send (endpoint 2 3) 10 ADDRESS_OF_tlsio_static_instance
                       (Some []) 4 (Some 14%positive) NULL (opened_world (endpoint 2 3))))
    = trace (opened_world (endpoint 2 3)) ++ added
    /\ writes_the_unsent_suffix 4 0 added.
Proof.
  apply (send_offers_the_unsent_suffix (endpoint 2 3) 10 ADDRESS_OF_tlsio_static_instance
           [] 4 (Some 14%positive) NULL (opened_world (endpoint 2 3))).
  - intros t s offset num. cbn. lia.
  - vm_compute. split; discriminate.
  - vm_compute. reflexivity.
Defined.

(** ** How open ends *)

Lemma retry_events_are_not_callbacks (s : pointer) (rs : list Z) :
  forallb is_not_callback (retry_events s rs) = true.
Proof. induction rs as [|r rs IH]; [reflexivity | exact IH]. Qed.

(** [create_and_connect_ssl] with fuel for its bound always returns.  It
    calls no callback and assigns to nothing but session, context and
    socket.  On success it has stored a session, a context and the
    descriptor the session was bound to; on failure session and context are
    NULL. *)
Lemma create_and_connect_ssl_outcome (env : Environment) (fuel : nat) (w : World) :
  (20 < fuel)%nat ->
  exists r w' added,
    create_and_connect_ssl env fuel w = Returned r w'
    /\ trace w' = trace w ++ added
    /\ forallb is_not_callback added = true
    /\ without_connection (tlsio_static_instance w')
       = without_connection (tlsio_static_instance w)
    /\ if r =? 0
       then ssl (tlsio_static_instance w') <> NULL
            /\ ssl_context (tlsio_static_instance w') <> NULL
            /\ 0 <= sock (tlsio_static_instance w')
            /\ In (Ev_SSL_set_fd (ssl (tlsio_static_instance w'))
                     (sock (tlsio_static_instance w')) 1) added
       else ssl (tlsio_static_instance w') = NULL
            /\ ssl_context (tlsio_static_instance w') = NULL.
Proof.
  intros Hfuel. unfold create_and_connect_ssl. run.
  set (sk := env_SSL_Socket_Create env (trace w) (hostname (tlsio_static_instance w))
               (port (tlsio_static_instance w))).
  assert (Hfail : forall (r : positive) (w0 : World) (pre : list event),
             without_connection (tlsio_static_instance w0)
             = without_connection (tlsio_static_instance w) ->
             trace w0 = trace w ++ pre ->
             forallb is_not_callback pre = true ->
             exists w' added,
               match
                 (if negb (FAILURE r =? 0)
                  then destroy_openssl_connection_members
                  else fun w1 : World => Returned tt w1) w0
               with
               | Returned _ w'0 => Returned (FAILURE r) w'0
               | OutOfFuel w'0 => OutOfFuel w'0
               end = Returned (FAILURE r) w'
               /\ trace w' = trace w ++ added
               /\ forallb is_not_callback added = true
               /\ without_connection (tlsio_static_instance w')
                  = without_connection (tlsio_static_instance w)
               /\ ssl (tlsio_static_instance w') = NULL
               /\ ssl_context (tlsio_static_instance w') = NULL).
  { intros r w0 pre Hwc Ht Hpre. cbn [FAILURE Z.eqb negb].
    rewrite destroy_openssl_connection_members_spec.
    eexists _, _. split; [reflexivity|]. cbn [trace tlsio_static_instance].
    rewrite Ht, <- !app_assoc. split; [reflexivity|].
    rewrite !forallb_app, Hpre. rewrite <- Hwc.
    destruct w0 as [[] t0 l0]; cbn.
    repeat match goal with
           | |- context [if ?c then _ else _] => destruct c
           end; cbn; repeat split. }
  destruct (Z.ltb_spec sk 0) as [Hneg | Hsock].
  { cbn [tlsio_static_instance trace log].
    match goal with
    | |- context [(if negb (FAILURE 100 =? 0) then _ else _) ?w0] =>
        destruct (Hfail 100%positive w0
                    [Ev_SSL_Socket_Create (hostname (tlsio_static_instance w))
                       (port (tlsio_static_instance w)) sk])
          as [w' [added [Hrun [Ht [Hcb [Hwc [Hs Hc]]]]]]]; try reflexivity
    end.
    exists (FAILURE 100), w', added. cbn [FAILURE Z.eqb].
    split; [exact Hrun|]. repeat split; assumption. }
  cbn [tlsio_static_instance trace log].
  match goal with
  | |- context [env_SSL_CTX_new env ?t] => set (ctx := env_SSL_CTX_new env t)
  end.
  destruct ctx as [c|].
  2:{ cbn [is_null tlsio_static_instance trace log].
      match goal with
      | |- context [(if negb (FAILURE 111 =? 0) then _ else _) ?w0] =>
          destruct (Hfail 111%positive w0
                      [Ev_SSL_Socket_Create (hostname (tlsio_static_instance w))
                         (port (tlsio_static_instance w)) sk; Ev_SSL_CTX_new None])
            as [w' [added [Hrun [Ht [Hcb [Hwc [Hs Hc]]]]]]];
          [destruct w as [[] t l]; reflexivity
          | cbn [trace]; rewrite <- !app_assoc; reflexivity
          | reflexivity |]
      end.
      exists (FAILURE 111), w', added. cbn [FAILURE Z.eqb].
      split; [exact Hrun|]. repeat split; assumption. }
  cbn [is_null tlsio_static_instance trace log].
  match goal with
  | |- context [env_SSL_new env ?t ?c] => set (ss := env_SSL_new env t c)
  end.
  destruct ss as [s|].
  2:{ cbn [is_null tlsio_static_instance trace log].
      match goal with
      | |- context [(if negb (FAILURE 119 =? 0) then _ else _) ?w0] =>
          destruct (Hfail 119%positive w0
                      [Ev_SSL_Socket_Create (hostname (tlsio_static_instance w))
                         (port (tlsio_static_instance w)) sk;
                       Ev_SSL_CTX_new (Some c); Ev_SSL_new (Some c) None])
            as [w' [added [Hrun [Ht [Hcb [Hwc [Hs Hc]]]]]]];
          [destruct w as [[] t l]; reflexivity
          | cbn [trace]; rewrite <- !app_assoc; reflexivity
          | reflexivity |]
      end.
      exists (FAILURE 119), w', added. cbn [FAILURE Z.eqb].
      split; [exact Hrun|]. repeat split; assumption. }
  cbn [is_null tlsio_static_instance trace log].
  match goal with
  | |- context [env_SSL_set_fd env ?t ?a ?b] => set (fd := env_SSL_set_fd env t a b)
  end.
  destruct (Z.eqb_spec fd 1) as [Hfd | Hfd]; cbn [negb].
  2:{ cbn [tlsio_static_instance trace log].
      match goal with
      | |- context [(if negb (FAILURE 130 =? 0) then _ else _) ?w0] =>
          destruct (Hfail 130%positive w0
                      [Ev_SSL_Socket_Create (hostname (tlsio_static_instance w))
                         (port (tlsio_static_instance w)) sk;
                       Ev_SSL_CTX_new (Some c); Ev_SSL_new (Some c) (Some s);
                       Ev_SSL_CTX_set_default_read_buffer_len (Some c)
                         OPENSSL_DEFAULT_READ_BUFFER_SIZE;
                       Ev_SSL_set_fd (Some s) sk fd])
            as [w' [added [Hrun [Ht [Hcb [Hwc [Hs Hc]]]]]]];
          [destruct w as [[] t l]; reflexivity
          | cbn [trace]; rewrite <- !app_assoc; reflexivity
          | reflexivity |]
      end.
      exists (FAILURE 130), w', added. cbn [FAILURE Z.eqb].
      split; [exact Hrun|]. repeat split; assumption. }
  match goal with
  | |- context [connect_loop env fuel ?p 0 ?w0] =>
      destruct (connect_loop_spec env p fuel 0 w0)
        as [rs [last [Hrun [Hle [Hnz Hlast]]]]];
      [unfold MAX_RETRY; lia | change (Z.to_nat (MAX_RETRY - 0)) with 20%nat; exact Hfuel |]
  end.
  rewrite Hrun. clear Hrun. cbn [tlsio_static_instance trace log].
  destruct (Z.geb_spec (0 + Z.of_nat (List.length rs)) MAX_RETRY) as [Hall | Hsome].
  - cbn [tlsio_static_instance trace log].
    match goal with
    | |- context [(if negb (FAILURE 159 =? 0) then _ else _) ?w0] =>
        destruct (Hfail 159%positive w0
                    ([Ev_SSL_Socket_Create (hostname (tlsio_static_instance w))
                        (port (tlsio_static_instance w)) sk;
                      Ev_SSL_CTX_new (Some c); Ev_SSL_new (Some c) (Some s);
                      Ev_SSL_CTX_set_default_read_buffer_len (Some c)
                        OPENSSL_DEFAULT_READ_BUFFER_SIZE;
                      Ev_SSL_set_fd (Some s) sk fd]
                     ++ retry_events (Some s) rs ++ [Ev_SSL_connect (Some s) last]))
          as [w' [added [Hrun [Ht [Hcb [Hwc [Hs Hc]]]]]]];
        [destruct w as [[] t l]; reflexivity
        | cbn [trace]; rewrite <- !app_assoc; reflexivity
        | rewrite !forallb_app, retry_events_are_not_callbacks; reflexivity |]
    end.
    exists (FAILURE 159), w', added. cbn [FAILURE Z.eqb].
    split; [exact Hrun|]. repeat split; assumption.
  - eexists _, _, _. split; [reflexivity|]. cbn [trace tlsio_static_instance].
    rewrite <- !app_assoc. split; [reflexivity|].
    split.
    { rewrite !forallb_app, retry_events_are_not_callbacks. reflexivity. }
    split; [destruct w as [[] t l]; reflexivity|].
    cbn. repeat split; try discriminate; try assumption.
    rewrite Hfd. do 4 right. left. reflexivity.
Qed.

Lemma no_callbacks_to_filter (t : list event) :
  forallb is_not_callback t = true -> filter is_callback t = [].
Proof.
  induction t as [|e t IH]; [reflexivity|].
  cbn [forallb filter]. intros H. apply andb_prop in H. destruct H as [He Ht].
  unfold is_not_callback in He. apply negb_true_iff in He. rewrite He. auto.
Qed.

(** The whole of what an open() with on_bytes_received does, by its
    result. *)
Lemma open_outcome (env : Environment) (fuel : nat) (tls_io : CONCRETE_IO_HANDLE)
    (oc occ br brc oe oec : pointer) (w : World) :
  (20 < fuel)%nat ->
  br <> NULL ->
  exists r w' added,
    tlsio_openssl_open env fuel tls_io oc occ br brc oe oec w = Returned r w'
    /\ trace w' = trace w ++ added
    /\ if r =? 0
       then tlsio_state (tlsio_static_instance w) = TLSIO_STATE_NOT_OPEN
            /\ tlsio_state (tlsio_static_instance w') = TLSIO_STATE_OPEN
            /\ ssl (tlsio_static_instance w') <> NULL
            /\ ssl_context (tlsio_static_instance w') <> NULL
            /\ 0 <= sock (tlsio_static_instance w')
            /\ on_bytes_received (tlsio_static_instance w') = br
            /\ In (Ev_SSL_set_fd (ssl (tlsio_static_instance w'))
                     (sock (tlsio_static_instance w')) 1) added
            /\ filter is_callback added
               = match oc with
                 | Some _ => [Ev_on_io_open_complete oc occ IO_OPEN_OK]
                 | None => []
                 end
       else tlsio_state (tlsio_static_instance w') = TLSIO_STATE_ERROR
            /\ filter is_callback added
               = match oe with
                 | Some _ => [Ev_on_io_error oe oec]
                 | None => []
                 end.
Proof.
  intros Hfuel Hbr. apply is_null_false in Hbr.
  unfold tlsio_openssl_open, invoke_on_io_error, send_handshake_bytes.
  rewrite Hbr. run.
  destruct (tlsio_state (tlsio_static_instance w)) eqn:Hstate;
    cbn [TLSIO_STATE_eqb negb].
  2-5: destruct oe as [e|]; cbn;
    eexists _, _, _; (split; [reflexivity|]); cbn;
    (split; [try reflexivity; symmetry; apply app_nil_r|]); split; reflexivity.
  match goal with
  | |- context [create_and_connect_ssl env fuel ?w0] =>
      destruct (create_and_connect_ssl_outcome env fuel w0 Hfuel)
        as [r [w1 [added [Hrun [Htrace [Hnone [Hwc Hres]]]]]]]
  end.
  rewrite Hrun. clear Hrun. cbn [tlsio_static_instance trace log] in *.
  apply no_callbacks_to_filter in Hnone.
  pose proof (f_equal on_io_open_complete Hwc) as Hoc.
  pose proof (f_equal on_io_open_complete_context Hwc) as Hocc.
  pose proof (f_equal on_bytes_received Hwc) as Hobr.
  pose proof (f_equal on_io_error Hwc) as Hoe.
  pose proof (f_equal on_io_error_context Hwc) as Hoec.
  cbn in Hoc, Hocc, Hobr, Hoe, Hoec. clear Hwc.
  destruct (Z.eqb_spec r 0) as [Hok | Hfail]; cbn [negb].
  - cbn [set_tlsio_state on_io_open_complete on_io_open_complete_context].
    rewrite Hoc, Hocc.
    destruct oc as [c|]; cbn [is_null negb tlsio_static_instance trace log];
      eexists _, _, _; (split; [reflexivity|]); cbn [trace tlsio_static_instance];
      rewrite Htrace, <- ?app_assoc; (split; [reflexivity|]);
      cbn [Z.eqb]; rewrite ?filter_app, Hnone; cbn.
    all: destruct Hres as [Hs [Hc [Hk Hin]]].
    all: repeat split; auto; try (apply in_or_app; left; exact Hin).
  - cbn [negb FAILURE Z.eqb tlsio_static_instance trace log
           set_tlsio_state on_io_error on_io_error_context].
    rewrite Hoe, Hoec.
    destruct oe as [e|]; cbn [is_null negb tlsio_static_instance trace log];
      eexists _, _, _; (split; [reflexivity|]); cbn [trace tlsio_static_instance];
      rewrite Htrace, <- ?app_assoc; (split; [reflexivity|]);
      cbn [FAILURE Z.eqb]; rewrite ?filter_app, Hnone; cbn.
    all: repeat split; rewrite ?app_nil_r; auto.
Qed.

(** For callbacks that do not call back into the adapter: an open() that
    is given on_bytes_received (and fuel for its retry bound) returns, and
    ends in one of two ways.  Either it returns 0: the state was NOT_OPEN
    and is now OPEN, the instance holds a session and a context, the
    session was bound to the stored socket by [SSL_set_fd], and the only
    callback called is on_open_complete with IO_OPEN_OK (when not NULL).
    Or it returns failure: the state is ERROR and the only callback called
    is on_error (when not NULL).  It never calls both.  (An on_open_complete
    that itself calls close() or create() is outside this statement: the
    code would set OPEN again at line 359 over an instance without
    session.) *)
Theorem open_ends_in_OPEN_or_ERROR (env : Environment) (fuel : nat)
    (tls_io : CONCRETE_IO_HANDLE) (oc occ br brc oe oec : pointer) (w : World) :
  (20 < fuel)%nat ->
  br <> NULL ->
  exists r w' added,
    tlsio_openssl_open env fuel tls_io oc occ br brc oe oec w = Returned r w'
    /\ trace w' = trace w ++ added
    /\ ((r = 0
         /\ tlsio_state (tlsio_static_instance w) = TLSIO_STATE_NOT_OPEN
         /\ tlsio_state (tlsio_static_instance w') = TLSIO_STATE_OPEN
         /\ ssl (tlsio_static_instance w') <> NULL
         /\ ssl_context (tlsio_static_instance w') <> NULL
         /\ In (Ev_SSL_set_fd (ssl (tlsio_static_instance w'))
                  (sock (tlsio_static_instance w')) 1) added
         /\ filter is_callback added
            = match oc with
              | Some _ => [Ev_on_io_open_complete oc occ IO_OPEN_OK]
              | None => []
              end)
        \/ (r <> 0
            /\ tlsio_state (tlsio_static_instance w') = TLSIO_STATE_ERROR
            /\ filter is_callback added
               = match oe with
                 | Some _ => [Ev_on_io_error oe oec]
                 | None => []
                 end)).
Proof.
  intros Hfuel Hbr.
  destruct (open_outcome env fuel tls_io oc occ br brc oe oec w Hfuel Hbr)
    as [r [w' [added [Hrun [Ht Hres]]]]].
  exists r, w', added. split; [exact Hrun|]. split; [exact Ht|].
  destruct (Z.eqb_spec r 0) as [Hok | Hfail].
  - left. destruct Hres as [H1 [H2 [H3 [H4 [H5 [H6 [H7 H8]]]]]]]. repeat split; assumption.
  - right. destruct Hres as [H1 H2]. repeat split; assumption.
Qed.

Lemma open_ends_in_OPEN_or_ERROR_witness :
  exists r w' added,
    tlsio_openssl_open (endpoint 2 3) 30 ADDRESS_OF_tlsio_static_instance
      (Some 11%positive) NULL (Some 12%positive) NULL (Some 13%positive) NULL
      (created_world (endpoint 2 3)) = Returned r w'
    /\ trace w' = trace (created_world (endpoint 2 3)) ++ added
    /\ ((r = 0
         /\ tlsio_state (tlsio_static_instance (created_world (endpoint 2 3)))
            = TLSIO_STATE_NOT_OPEN
         /\ tlsio_state (tlsio_static_instance w') = TLSIO_STATE_OPEN
         /\ ssl (tlsio_static_instance w') <> NULL
         /\ ssl_context (tlsio_static_instance w') <> NULL
         /\ In (Ev_SSL_set_fd (ssl (tlsio_static_instance w'))
                  (sock (tlsio_static_instance w')) 1) added
         /\ filter is_callback added
            = [Ev_on_io_open_complete (Some 11%positive) NULL IO_OPEN_OK])
        \/ (r <> 0
            /\ tlsio_state (tlsio_static_instance w') = TLSIO_STATE_ERROR
            /\ filter is_callback added
               = [Ev_on_io_error (Some 13%positive) NULL])).
Proof.
  apply (open_ends_in_OPEN_or_ERROR (endpoint 2 3) 30 ADDRESS_OF_tlsio_static_instance
           (Some 11%positive) NULL (Some 12%positive) NULL (Some 13%positive) NULL
           (created_world (endpoint 2 3))).
  - lia.
  - discriminate.
Defined.

(** ** close, call by call *)

(** close() by the state it finds.  In NOT_OPEN, OPENING or CLOSING it
    returns failure, sets ERROR and calls nothing.  In OPEN or ERROR it
    returns 0 and leaves NOT_OPEN with the session and context pointers
    cleared: [SSL_shutdown] on the stored session comes first, then only
    release calls, and the close callback passed to this call comes last,
    called once when it is not NULL. *)
Theorem close_by_state (tls_io : CONCRETE_IO_HANDLE) (cb ctx : pointer) (w : World) :
  let i := tlsio_static_instance w in
  exists r w',
    tlsio_openssl_close tls_io cb ctx w = Returned r w'
    /\ match tlsio_state i with
       | TLSIO_STATE_OPEN | TLSIO_STATE_ERROR =>
           r = 0
           /\ tlsio_state (tlsio_static_instance w') = TLSIO_STATE_NOT_OPEN
           /\ ssl (tlsio_static_instance w') = NULL
           /\ ssl_context (tlsio_static_instance w') = NULL
           /\ exists releases,
               forallb is_release releases = true
               /\ trace w' = trace w ++ Ev_SSL_shutdown (ssl i) :: releases
                               ++ match cb with
                                  | Some _ => [Ev_on_io_close_complete cb ctx]
                                  | None => []
                                  end
       | _ =>
           r <> 0
           /\ tlsio_state (tlsio_static_instance w') = TLSIO_STATE_ERROR
           /\ trace w' = trace w
       end.
Proof.
  cbv zeta.
  assert (Hacc : tlsio_state (tlsio_static_instance w) = TLSIO_STATE_OPEN
                 \/ tlsio_state (tlsio_static_instance w) = TLSIO_STATE_ERROR ->
                 exists r w',
                   tlsio_openssl_close tls_io cb ctx w = Returned r w'
                   /\ r = 0
                   /\ tlsio_state (tlsio_static_instance w') = TLSIO_STATE_NOT_OPEN
                   /\ ssl (tlsio_static_instance w') = NULL
                   /\ ssl_context (tlsio_static_instance w') = NULL
                   /\ exists releases,
                       forallb is_release releases = true
                       /\ trace w' = trace w
                            ++ Ev_SSL_shutdown (ssl (tlsio_static_instance w)) :: releases
                            ++ match cb with
                               | Some _ => [Ev_on_io_close_complete cb ctx]
                               | None => []
                               end).
  { intros Hstate.
    destruct (close_accepted tls_io cb ctx w Hstate) as [w' [Hrun [Hs [Hssl [Hctx [_ Ht]]]]]].
    exists 0, w'. repeat (split; [assumption || reflexivity|]).
    exists ((if is_null (ssl (tlsio_static_instance w)) then []
             else [Ev_SSL_free (ssl (tlsio_static_instance w))])
            ++ (if is_null (ssl_context (tlsio_static_instance w)) then []
                else [Ev_SSL_CTX_free (ssl_context (tlsio_static_instance w))])
            ++ (if sock (tlsio_static_instance w) <? 0
                then [Ev_SSL_Socket_Close (sock (tlsio_static_instance w))] else [])).
    split.
    - destruct (is_null (ssl (tlsio_static_instance w))),
               (is_null (ssl_context (tlsio_static_instance w))),
               (sock (tlsio_static_instance w) <? 0); reflexivity.
    - rewrite Ht. cbn [app]. rewrite <- !app_assoc.
      destruct cb; reflexivity. }
  destruct (tlsio_state (tlsio_static_instance w)) eqn:Hstate.
  4:{ destruct (close_rejected tls_io cb ctx w) as [r [w' [Hrun H]]];
        try (rewrite Hstate; discriminate).
      exists r, w'. split; assumption. }
  1-2: destruct (close_rejected tls_io cb ctx w) as [r [w' [Hrun H]]];
    try (rewrite Hstate; discriminate); exists r, w'; split; assumption.
  all: destruct Hacc as [r [w' [Hrun H]]]; auto; exists r, w'; split; assumption.
Qed.

(** Closing twice: after a close() that was accepted, a second close() is
    refused: it returns failure, calls nothing and leaves the state ERROR.
    ERROR can itself be closed: a third close() returns 0 and the state is
    NOT_OPEN again. *)
Theorem second_close_is_refused (h1 h2 h3 : CONCRETE_IO_HANDLE)
    (cb1 ctx1 cb2 ctx2 cb3 ctx3 : pointer) (w : World) :
  tlsio_state (tlsio_static_instance w) = TLSIO_STATE_OPEN
  \/ tlsio_state (tlsio_static_instance w) = TLSIO_STATE_ERROR ->
  exists w1 r w2 w3,
    tlsio_openssl_close h1 cb1 ctx1 w = Returned 0 w1
    /\ tlsio_openssl_close h2 cb2 ctx2 w1 = Returned r w2
    /\ r <> 0
    /\ tlsio_state (tlsio_static_instance w2) = TLSIO_STATE_ERROR
    /\ trace w2 = trace w1
    /\ tlsio_openssl_close h3 cb3 ctx3 w2 = Returned 0 w3
    /\ tlsio_state (tlsio_static_instance w3) = TLSIO_STATE_NOT_OPEN.
Proof.
  intros Hstate.
  destruct (close_accepted h1 cb1 ctx1 w Hstate) as [w1 [Hrun1 [Hs1 _]]].
  destruct (close_rejected h2 cb2 ctx2 w1) as [r [w2 [Hrun2 [Hr [Hs2 Ht2]]]]];
    try (rewrite Hs1; discriminate).
  destruct (close_accepted h3 cb3 ctx3 w2 (or_intror Hs2)) as [w3 [Hrun3 [Hs3 _]]].
  exists w1, r, w2, w3. repeat split; assumption.
Qed.

Lemma second_close_is_refused_witness :
  exists w1 r w2 w3,
    tlsio_openssl_close ADDRESS_OF_tlsio_static_instance (Some 15%positive) NULL
      (opened_world (endpoint 2 3)) = Returned 0 w1
    /\ tlsio_openssl_close ADDRESS_OF_tlsio_static_instance (Some 15%positive) NULL w1
       = Returned r w2
    /\ r <> 0
    /\ tlsio_state (tlsio_static_instance w2) = TLSIO_STATE_ERROR
    /\ trace w2 = trace w1
    /\ tlsio_openssl_close ADDRESS_OF_tlsio_static_instance (Some 15%positive) NULL w2
       = Returned 0 w3
    /\ tlsio_state (tlsio_static_instance w3) = TLSIO_STATE_NOT_OPEN.
Proof.
  apply (second_close_is_refused ADDRESS_OF_tlsio_static_instance
           ADDRESS_OF_tlsio_static_instance ADDRESS_OF_tlsio_static_instance
           (Some 15%positive) NULL (Some 15%positive) NULL (Some 15%positive) NULL
           (opened_world (endpoint 2 3))).
  left. vm_compute. reflexivity.
Defined.

(** ** What holds between calls *)

Lemma frees_call_functions (l : list c_string) :
  forallb calls_a_function (map Ev_free l) = true.
Proof. induction l as [|x l IH]; [reflexivity | exact IH]. Qed.

Lemma callbacks_decide_calls_a_function (t : list event) :
  forallb calls_a_function (filter is_callback t) = true ->
  forallb calls_a_function t = true.
Proof.
  induction t as [|e t IH]; [reflexivity|].
  cbn [filter forallb]. destruct (is_callback e) eqn:He.
  - cbn [forallb]. intros H. apply andb_prop in H. destruct H as [H1 H2].
    rewrite H1. cbn. auto.
  - intros H. rewrite (IH H). destruct e; try discriminate He; reflexivity.
Qed.

Lemma consistent_without_strings (i : TLS_IO_INSTANCE) :
  consistent i ->
  consistent
    (set_x509privatekey None
       (set_x509certificate None (set_hostname None (set_certificate None i)))).
Proof. unfold consistent. cbn. auto. Qed.

(** Every call keeps the world sound, also when it has not returned. *)
Lemma perform_keeps_sound (env : Environment) (fuel : nat) (c : api_call) (w : World) :
  (20 < fuel)%nat ->
  sound w ->
  sound (world_of (perform env fuel c w)).
Proof.
  intros Hfuel [Hcons Htrace]. unfold sound.
  destruct c as [p | h | h oc occ br brc oe oec | h cb ctx | h b n cb ctx | h | h name v];
    cbn [perform].
  - (* create *)
    unfold tlsio_openssl_create. destruct p as [cfg|]; run.
    + cbn. destruct (fst (env_mallocAndStrcpy_s env (trace w) (config_hostname cfg)) =? 0);
        cbn; (split; [unfold consistent; cbn; auto|]);
        rewrite forallb_app, Htrace; reflexivity.
    + cbn. split; assumption.
  - (* destroy *)
    rewrite tlsio_openssl_destroy_spec. cbn [world_of tlsio_static_instance trace].
    split; [apply consistent_without_strings; exact Hcons|].
    rewrite forallb_app, Htrace, frees_call_functions. reflexivity.
  - (* open *)
    destruct br as [b|].
    + destruct (open_outcome env fuel h oc occ (Some b) brc oe oec w Hfuel)
        as [r [w' [added [Hrun [Ht Hres]]]]]; [discriminate|].
      unfold bind, ret. rewrite Hrun. cbn [world_of].
      destruct (r =? 0).
      * destruct Hres as [_ [Hs [Hssl [Hctx [Hsock [Hbr [_ Hcb]]]]]]].
        split.
        { unfold consistent. rewrite Hs, Hbr. repeat split; try assumption. discriminate. }
        rewrite Ht, forallb_app, Htrace. cbn [andb].
        apply callbacks_decide_calls_a_function. rewrite Hcb. destruct oc; reflexivity.
      * destruct Hres as [Hs Hcb].
        split; [unfold consistent; rewrite Hs; exact I|].
        rewrite Ht, forallb_app, Htrace. cbn [andb].
        apply callbacks_decide_calls_a_function. rewrite Hcb. destruct oe; reflexivity.
    + unfold tlsio_openssl_open. cbn [is_null]. run. cbn. split; assumption.
  - (* close *)
    unfold bind, ret.
    destruct (tlsio_state (tlsio_static_instance w)) eqn:Hstate.
    4:{ unfold consistent in Hcons. rewrite Hstate in Hcons. contradiction. }
    2:{ unfold consistent in Hcons. rewrite Hstate in Hcons. contradiction. }
    1:{ destruct (close_rejected h cb ctx w) as [r [w' [Hrun [_ [Hs Ht]]]]];
          try (rewrite Hstate; discriminate).
        rewrite Hrun. cbn [world_of]. split.
        - unfold consistent. rewrite Hs. exact I.
        - rewrite Ht. exact Htrace. }
    all: destruct (close_accepted h cb ctx w) as [w' [Hrun [Hs [Hssl [Hctx [_ Ht]]]]]];
      [auto|]; rewrite Hrun; cbn [world_of]; split;
      [unfold consistent; rewrite Hs; split; assumption|];
      rewrite Ht, !forallb_app, Htrace;
      destruct (is_null (ssl (tlsio_static_instance w))),
               (is_null (ssl_context (tlsio_static_instance w))),
               (sock (tlsio_static_instance w) <? 0), cb; reflexivity.
  - (* send *)
    destruct (send_frame env fuel h b n cb ctx w) as [Hi [added [Ht [Hf _]]]].
    unfold bind, ret.
    destruct (tlsio_openssl_send env fuel h b n cb ctx w) as [r w' | w'];
      cbn [world_of] in *; rewrite Hi, Ht, forallb_app, Htrace, Hf; split; auto.
  - (* dowork *)
    unfold tlsio_openssl_dowork, decode_ssl_received_bytes. run.
    destruct (tlsio_state (tlsio_static_instance w)) eqn:Hstate;
      cbn [TLSIO_STATE_eqb]; try (cbn; split; assumption).
    assert (Hbr : is_null (on_bytes_received (tlsio_static_instance w)) = false).
    { unfold consistent in Hcons. rewrite Hstate in Hcons.
      apply is_null_false. apply Hcons. }
    destruct (fst (env_SSL_read env (trace w) (ssl (tlsio_static_instance w)) 64) >? 0);
      cbn; (split; [exact Hcons|]); rewrite !forallb_app, Htrace; cbn;
      rewrite ?Hbr; reflexivity.
  - (* setoption *)
    cbn. split; assumption.
Qed.

Lemma perform_all_keeps_sound (env : Environment) (fuel : nat) (cs : list api_call) :
  (20 < fuel)%nat ->
  forall w, sound w -> sound (world_of (perform_all env fuel cs w)).
Proof.
  intros Hfuel. induction cs as [|c cs IH]; intros w Hw; [exact Hw|].
  cbn [perform_all]. unfold bind.
  pose proof (perform_keeps_sound env fuel c w Hfuel Hw) as Hc.
  destruct (perform env fuel c w) as [[] w1 | w1]; cbn [world_of] in Hc.
  - apply IH. exact Hc.
  - exact Hc.
Qed.

Lemma initial_world_is_sound : sound initial_world.
Proof. split; [split; reflexivity | reflexivity]. Qed.

(** For callbacks that do not call back into the adapter: whatever calls
    a caller makes, in whatever order and with whatever arguments, starting
    from the zero-initialised static instance, after each call the state is
    NOT_OPEN, OPEN or ERROR, never OPENING or CLOSING; in NOT_OPEN the
    instance holds no session and no context; in OPEN it holds a session, a
    context, a non-negative socket descriptor and a non-NULL
    on_bytes_received.  (This also holds of the instance of a send() that is
    still in its loop.  An on_open_complete that itself calls close() or
    create() is outside this statement: the code would set OPEN again at
    line 359 over an instance without session.) *)
Theorem instance_is_consistent_between_calls
    (env : Environment) (fuel : nat) (cs : list api_call) :
  (20 < fuel)%nat ->
  consistent (tlsio_static_instance (world_of (perform_all env fuel cs initial_world))).
Proof.
  intros Hfuel.
  apply (perform_all_keeps_sound env fuel cs Hfuel initial_world initial_world_is_sound).
Qed.

Lemma instance_is_consistent_between_calls_witness :
  tlsio_state
    (tlsio_static_instance
       (world_of (perform_all (endpoint 2 3) 30 example_calls_left_open initial_world)))
  = TLSIO_STATE_OPEN
  /\ consistent
       (tlsio_static_instance
          (world_of (perform_all (endpoint 2 3) 30 example_calls_left_open
                       initial_world))).
Proof.
  split.
  - vm_compute. reflexivity.
  - apply (instance_is_consistent_between_calls (endpoint 2 3) 30
             example_calls_left_open).
    lia.
Defined.

(** Whatever calls a caller makes, starting from the zero-initialised static
    instance, the adapter never calls through a NULL function pointer:
    every callback it has invoked, the unchecked on_bytes_received call of
    dowork (line 215) included, was a non-NULL one.  (Callbacks are taken
    not to call back into the adapter.) *)
Theorem no_call_through_NULL (env : Environment) (fuel : nat) (cs : list api_call) :
  (20 < fuel)%nat ->
  forallb calls_a_function (trace (world_of (perform_all env fuel cs initial_world)))
  = true.
Proof.
  intros Hfuel.
  apply (perform_all_keeps_sound env fuel cs Hfuel initial_world initial_world_is_sound).
Qed.

Lemma no_call_through_NULL_witness :
  forallb calls_a_function
    (trace (world_of (perform_all (endpoint 2 3) 30 example_calls initial_world)))
  = true.
Proof.
  apply (no_call_through_NULL (endpoint 2 3) 30 example_calls).
  lia.
Defined.

(** ** How long open can sleep *)

Lemma time_slept_app (a b : list event) :
  time_slept (a ++ b) = time_slept a + time_slept b.
Proof.
  induction a as [|e a IH]; cbn; [reflexivity|].
  destruct e; rewrite ?IH; try reflexivity. lia.
Qed.

Lemma time_slept_handshake_events (t : list event) :
  time_slept (filter is_handshake_event t) = time_slept t.
Proof.
  induction t as [|e t IH]; [reflexivity|].
  destruct e; cbn; rewrite ?IH; reflexivity.
Qed.

Lemma time_slept_retry_events (s : pointer) (rs : list Z) :
  time_slept (retry_events s rs) = RETRY_DELAY * Z.of_nat (List.length rs).
Proof.
  induction rs as [|r rs IH]; [reflexivity|].
  cbn [retry_events flat_map app time_slept List.length].
  unfold retry_events in IH. rewrite IH. lia.
Qed.

(** Every open() given fuel for its retry bound returns, and the time it
    has spent sleeping is a whole number of retry delays, at most
    20 * 1000 milliseconds; an open() refused for its arguments or for the
    state does not sleep at all. *)
Theorem open_sleeps_at_most_twenty_delays (env : Environment) (fuel : nat)
    (tls_io : CONCRETE_IO_HANDLE) (oc occ br brc oe oec : pointer) (w : World) :
  (20 < fuel)%nat ->
  exists r w' (retries : nat),
    tlsio_openssl_open env fuel tls_io oc occ br brc oe oec w = Returned r w'
    /\ (retries <= 20)%nat
    /\ time_slept (trace w') = time_slept (trace w) + 1000 * Z.of_nat retries
    /\ (br = NULL \/ tlsio_state (tlsio_static_instance w) <> TLSIO_STATE_NOT_OPEN ->
        retries = 0%nat).
Proof.
  intros Hfuel.
  unfold tlsio_openssl_open, invoke_on_io_error, send_handshake_bytes.
  destruct br as [b|]; cbn [is_null]; run.
  2:{ exists (FAILURE 315), (mkWorld (tlsio_static_instance w) (trace w)
                               (log w ++ [LogError "Required non-NULL parameter on_bytes_received is NULL"])),
             0%nat.
      cbn. repeat split; lia. }
  destruct (tlsio_state (tlsio_static_instance w)) eqn:Hstate;
    cbn [TLSIO_STATE_eqb negb].
  2-5: destruct oe as [e|]; cbn;
    eexists _, _, 0%nat; (split; [reflexivity|]); cbn;
    rewrite ?time_slept_app; cbn; repeat split; lia.
  match goal with
  | |- context [create_and_connect_ssl env fuel ?w0] =>
      destruct (create_and_connect_ssl_spec env fuel w0)
        as [r [w1 [added [Hrun [Htrace [_ [_ Hshape]]]]]]];
      [change (Z.to_nat MAX_RETRY) with 20%nat; exact Hfuel |]
  end.
  rewrite Hrun. clear Hrun. cbn [tlsio_static_instance trace log] in *.
  change (Z.to_nat MAX_RETRY) with 20%nat in Hshape.
  assert (Hslept : exists retries : nat,
             (retries <= 20)%nat
             /\ time_slept (trace w1) = time_slept (trace w) + 1000 * Z.of_nat retries).
  { rewrite Htrace, time_slept_app, <- (time_slept_handshake_events added).
    destruct Hshape as [[Hf _] | [s [rs [last [Hf [_ [Hlen _]]]]]]]; rewrite Hf.
    - exists 0%nat. cbn. split; lia.
    - exists (List.length rs). split; [exact Hlen|].
      rewrite time_slept_app, time_slept_retry_events. cbn. unfold RETRY_DELAY. lia. }
  destruct Hslept as [retries [Hle Hs]].
  destruct (r =? 0); cbn [negb FAILURE Z.eqb tlsio_static_instance trace log].
  - match goal with
    | |- context [is_null ?p] => destruct (is_null p)
    end; cbn [negb tlsio_static_instance trace log];
      eexists _, _, retries; (split; [reflexivity|]); cbn [trace];
      rewrite ?time_slept_app, Hs; cbn; (split; [exact Hle|]); split; try lia;
      (intros [H | H]; [discriminate H | contradiction H; reflexivity]).
  - match goal with
    | |- context [is_null ?p] => destruct (is_null p)
    end; cbn [negb tlsio_static_instance trace log];
      eexists _, _, retries; (split; [reflexivity|]); cbn [trace];
      rewrite ?time_slept_app, Hs; cbn; (split; [exact Hle|]); split; try lia;
      (intros [H | H]; [discriminate H | contradiction H; reflexivity]).
Qed.

Lemma open_sleeps_at_most_twenty_delays_witness :
  exists r w' (retries : nat),
    tlsio_openssl_open (endpoint 25 3) 30 ADDRESS_OF_tlsio_static_instance
      (Some 11%positive) NULL (Some 12%positive) NULL (Some 13%positive) NULL
      (created_world (endpoint 25 3)) = Returned r w'
    /\ (retries <= 20)%nat
    /\ time_slept (trace w')
       = time_slept (trace (created_world (endpoint 25 3))) + 1000 * Z.of_nat retries
    /\ (Some 12%positive = NULL
        \/ tlsio_state (tlsio_static_instance (created_world (endpoint 25 3)))
           <> TLSIO_STATE_NOT_OPEN ->
        retries = 0%nat).
Proof.
  apply (open_sleeps_at_most_twenty_delays (endpoint 25 3) 30
           ADDRESS_OF_tlsio_static_instance
           (Some 11%positive) NULL (Some 12%positive) NULL (Some 13%positive) NULL
           (created_world (endpoint 25 3))).
  lia.
Defined.

(** ** A send that fails is short *)

(** On a transport that never reports more than it was asked to write, a
    send() whose loop has ended never has more bytes accepted than were
    requested, and when it returns failure it has strictly fewer: a failed
    send may still have handed a prefix of the buffer to the transport, but
    never the whole of it. *)
Theorem failed_send_is_short
    (env : Environment) (fuel : nat) (tls_io : CONCRETE_IO_HANDLE)
    (data : list Byte.byte) (size : Z) (cb ctx : pointer)
    (w : World) (tw : Z) (w1 : World) :
  SSL_write_bounded env ->
  0 <= size <= SIZE_MAX ->
  tlsio_state (tlsio_static_instance w) = TLSIO_STATE_OPEN ->
  write_loop env fuel size 0 w = Returned tw w1 ->
  let written := bytes_written (trace w1) - bytes_written (trace w) in
  exists r w',
    tlsio_openssl_send env fuel tls_io (Some data) size cb ctx w = Returned r w'
    /\ 0 <= written <= size
    /\ (r <> 0 -> written < size).
Proof.
  intros Hbound Hsize Hstate Hloop written.
  assert (Hinv : write_loop_invariant size size 0) by (left; split; reflexivity).
  destruct (write_loop_accounting env size Hbound Hsize fuel size 0 w tw w1 Hinv Hloop)
    as [Hrange [Hfit Hacc]].
  assert (Hw : written = tw) by (unfold written; lia).
  unfold tlsio_openssl_send. run. rewrite Hstate. cbn [TLSIO_STATE_eqb negb].
  rewrite Hloop. rewrite to_size_t_in_range by lia.
  destruct (Z.eqb_spec tw size) as [Heq | Hneq];
    destruct cb as [c|]; cbn;
    eexists _, _; (split; [reflexivity|]); (split; [lia|]); intros Hr; try lia;
    contradiction Hr; reflexivity.
Qed.

Lemma failed_send_is_short_witness :
  exists r w',
    tlsio_openssl_send (failing_endpoint 3 5) 10 ADDRESS_OF_tlsio_static_instance
      (Some []) 4 (Some 14%positive) NULL (opened_world (endpoint 2 3))
      = Returned r w'
    /\ 0 <= 3 <= 4
    /\ (r <> 0 -> 3 < 4).
Proof.
  apply (failed_send_is_short (failing_endpoint 3 5) 10
           ADDRESS_OF_tlsio_static_instance [] 4 (Some 14%positive) NULL
           (opened_world (endpoint 2 3)) 3
           (world_of (write_loop (failing_endpoint 3 5) 10 4 0
                        (opened_world (endpoint 2 3))))).
  - intros t s offset num. cbn. destruct (count is_write t =? 0)%nat; lia.
  - vm_compute. split; discriminate.
  - vm_compute. reflexivity.
  - vm_compute. reflexivity.
Defined.
